(** * Hisen Desk: the presentation shell (src/App.tsx) and its backend queries

    The shell is a React component with five state variables.  Its two
    handlers, [refresh] and [runTest], are async functions that await
    backend commands through [invokeCmd].  They are embedded as programs
    of a small free monad whose only blocking operation is the await of a
    backend command; an event loop runs these programs, suspends them at
    each await and resumes them when the backend settles the call.

    The commands themselves are implemented by the Rust backend
    (src-tauri/src/main.rs); module [Backend] models them from the
    specification. *)

From Stdlib Require Import List String Ascii Bool Arith ZArith QArith Lia.
Import ListNotations.

Local Open Scope string_scope.
Local Open Scope list_scope.

(** ** Data model (App.tsx, lines 9-39) *)

(** [number] fields that count things are integers; measured quantities
    (latency, throughput) are rationals.  An optional or nullable field is
    an [option]: [undefined] and [null] are not told apart by any reader
    in the shell ([??], [!= null], [&&]). *)

Record NetworkIface := {
  name : string;
  received : Z;
  transmitted : Z
}.

Record SystemInfo := {
  os_name : option string;
  hostname : option string;
  kernel_version : option string;
  os_version : option string;
  cpu_brand : string;
  cpu_physical_cores : option Z;
  total_memory : Z;
  used_memory : Z;
  total_swap : Z;
  used_swap : Z;
  uptime : Z;
  network_ifaces : list NetworkIface
}.

Record AudioDevices := {
  inputs : list string;
  outputs : list string;
  default_input : option string;
  default_output : option string
}.

Record NetTestResult := {
  external_ip : option string;
  http_latency_ms : option Q;
  download_mbps : option Q;
  upload_mbps : option Q;
  error : option string
}.

(** A value thrown or rejected, as the text [String(e)] gives for it. *)
Definition exn := string.
Definition String_ (e : exn) : string := e.

(** The outcome of a promise: rejected with an error or fulfilled. *)
Definition settled (A : Type) : Type := (exn + A)%type.

(** ** Backend commands *)

Inductive cmd :=
| get_system_info
| list_audio_devices
| list_cameras
| run_network_test.

Definition cmd_eq_dec (a b : cmd) : {a = b} + {a <> b}.
Proof. decide equality. Defined.

Definition cmd_eqb (a b : cmd) : bool :=
  if cmd_eq_dec a b then true else false.

(** The type [T] at which the shell calls [invokeCmd<T>(cmd)]. *)
Definition reply (c : cmd) : Type :=
  match c with
  | get_system_info => SystemInfo
  | list_audio_devices => AudioDevices
  | list_cameras => list string
  | run_network_test => NetTestResult
  end.

(** ** Component state (App.tsx, lines 42-46) *)

Record AppState := {
  sys : option SystemInfo;
  audio : option AudioDevices;
  cameras : list string;
  testing : bool;
  net : option NetTestResult
}.

Definition initial_state : AppState :=
  {| sys := None; audio := None; cameras := []; testing := false; net := None |}.

(** ** Programs *)

(** The synchronous effects of the handlers. *)
Inductive action :=
| SetSys (s : SystemInfo)
| SetAudio (a : AudioDevices)
| SetCameras (cams : list string)
| SetTesting (b : bool)
| SetNet (r : option NetTestResult)
| ConsoleError (msg : string) (e : exn).

(** An async function body: it returns, throws, performs an action, or
    awaits a backend command and continues with its outcome. *)
Inductive prog (A : Type) : Type :=
| Ret (a : A)
| Throw (e : exn)
| Act (a : action) (k : prog A)
| Await (c : cmd) (k : settled (reply c) -> prog A).

Arguments Ret {A} a.
Arguments Throw {A} e.
Arguments Act {A} a k.
Arguments Await {A} c k.

Fixpoint bind {A B} (p : prog A) (f : A -> prog B) : prog B :=
  match p with
  | Ret a => f a
  | Throw e => Throw e
  | Act a k => Act a (bind k f)
  | Await c k => Await c (fun r => bind (k r) f)
  end.

(** [try { p } catch (e) { h e }] *)
Fixpoint try_catch {A} (p : prog A) (h : exn -> prog A) : prog A :=
  match p with
  | Ret a => Ret a
  | Throw e => h e
  | Act a k => Act a (try_catch k h)
  | Await c k => Await c (fun r => try_catch (k r) h)
  end.

(** [try { p } finally { f }]: [f] runs on both exits of [p]. *)
Fixpoint try_finally {A} (p : prog A) (f : prog unit) : prog A :=
  match p with
  | Ret a => bind f (fun _ => Ret a)
  | Throw e => bind f (fun _ => Throw e)
  | Act a k => Act a (try_finally k f)
  | Await c k => Await c (fun r => try_finally (k r) f)
  end.

Definition act (a : action) : prog unit := Act a (Ret tt).

Declare Scope prog_scope.
Delimit Scope prog_scope with prog.
Notation "x <- p ;; q" := (bind p (fun x => q))
  (at level 61, p at next level, right associativity) : prog_scope.
Notation "p ;; q" := (bind p (fun _ => q))
  (at level 61, right associativity) : prog_scope.
Local Open Scope prog_scope.

(** [invokeCmd] (App.tsx, lines 4-7): the promise of the command's reply;
    awaiting it throws when the promise is rejected.  The dynamic import
    of the Tauri API and the call of [invoke] are one await here: a failed
    import rejects the same promise, and the trace of calls records the
    calls of [invokeCmd]. *)
Definition invokeCmd (c : cmd) : prog (reply c) :=
  Await c (fun r => match r with inl e => Throw e | inr v => Ret v end).

Definition setSys (s : SystemInfo) := act (SetSys s).
Definition setAudio (a : AudioDevices) := act (SetAudio a).
Definition setCameras (cams : list string) := act (SetCameras cams).
Definition setTesting (b : bool) := act (SetTesting b).
Definition setNet (r : option NetTestResult) := act (SetNet r).
Definition console_error (msg : string) (e : exn) := act (ConsoleError msg e).

(** [refresh] (App.tsx, lines 48-59) *)
Definition refresh : prog unit :=
  try_catch
    (s <- invokeCmd get_system_info ;;
     setSys s ;;
     a <- invokeCmd list_audio_devices ;;
     setAudio a ;;
     cams <- invokeCmd list_cameras ;;
     setCameras cams)
    (fun e => console_error "refresh error" e).

(** The record literal [{ error: String(e) }] of line 68. *)
Definition error_only (e : exn) : NetTestResult :=
  {| external_ip := None; http_latency_ms := None; download_mbps := None;
     upload_mbps := None; error := Some (String_ e) |}.

(** [runTest] (App.tsx, lines 61-72) *)
Definition runTest : prog unit :=
  setTesting true ;;
  setNet None ;;
  try_finally
    (try_catch
       (r <- invokeCmd run_network_test ;;
        setNet (Some r))
       (fun e => setNet (Some (error_only e))))
    (setTesting false).

(** ** Running a handler *)

(** What a handler can change or reach besides the backend: the component
    state, the console, and the trace of backend commands invoked. *)
Record env := {
  st : AppState;
  console : list (string * exn);
  calls : list cmd
}.

(** The state setters: each replaces one state variable. *)
Definition with_sys (s : SystemInfo) (x : AppState) : AppState :=
  {| sys := Some s; audio := audio x; cameras := cameras x;
     testing := testing x; net := net x |}.

Definition with_audio (a : AudioDevices) (x : AppState) : AppState :=
  {| sys := sys x; audio := Some a; cameras := cameras x;
     testing := testing x; net := net x |}.

Definition with_cameras (cams : list string) (x : AppState) : AppState :=
  {| sys := sys x; audio := audio x; cameras := cams;
     testing := testing x; net := net x |}.

Definition with_testing (b : bool) (x : AppState) : AppState :=
  {| sys := sys x; audio := audio x; cameras := cameras x;
     testing := b; net := net x |}.

Definition with_net (r : option NetTestResult) (x : AppState) : AppState :=
  {| sys := sys x; audio := audio x; cameras := cameras x;
     testing := testing x; net := r |}.

Definition set_st (f : AppState -> AppState) (e : env) : env :=
  {| st := f (st e); console := console e; calls := calls e |}.

Definition logged (msg : string) (x : exn) (e : env) : env :=
  {| st := st e; console := console e ++ [(msg, x)]; calls := calls e |}.

Definition perform (a : action) (e : env) : env :=
  match a with
  | SetSys s => set_st (with_sys s) e
  | SetAudio a => set_st (with_audio a) e
  | SetCameras cams => set_st (with_cameras cams) e
  | SetTesting b => set_st (with_testing b) e
  | SetNet r => set_st (with_net r) e
  | ConsoleError msg x => logged msg x e
  end.

Definition invoked (c : cmd) (e : env) : env :=
  {| st := st e; console := console e; calls := calls e ++ [c] |}.

(** A backend answers each command with a settled promise. *)
Definition backend := forall c : cmd, settled (reply c).

(** [exec b p e] runs [p] to its end, every await answered by [b] at once:
    the handler on its own, nothing interleaved.  The second component is
    the error the handler's promise is rejected with, if any. *)
Fixpoint exec (b : backend) (p : prog unit) (e : env) : env * option exn :=
  match p with
  | Ret _ => (e, None)
  | Throw x => (e, Some x)
  | Act a k => exec b k (perform a e)
  | Await c k => exec b (k (b c)) (invoked c e)
  end.

(** ** The event loop *)

(** A handler suspended at an await. *)
Record task := {
  awaited : cmd;
  resume : settled (reply awaited) -> prog unit
}.

Inductive paused :=
| Finished
| Rejected (x : exn)
| Suspended (t : task).

(** Runs [p] up to its next await. *)
Fixpoint run_sync (p : prog unit) (e : env) : env * paused :=
  match p with
  | Ret _ => (e, Finished)
  | Throw x => (e, Rejected x)
  | Act a k => run_sync k (perform a e)
  | Await c k => (invoked c e, Suspended {| awaited := c; resume := k |})
  end.

Record world := {
  w_env : env;
  pending : list task
}.

Definition spawn (p : prog unit) (e : env) (ts : list task) : world :=
  let (e', o) := run_sync p e in
  {| w_env := e';
     pending := ts ++ match o with Suspended t => [t] | _ => [] end |}.

(** ** Rendering (App.tsx, lines 78-146) *)

Record button := {
  label : string;
  disabled : bool;
  onClick : prog unit
}.

(** What a JSX expression renders to: a text child, a number child
    (printed by React, or through [toFixed]), an element with its class
    name and children, a button, or a template literal, which is one text
    child made of its parts. *)
#[local] Set Warnings "-register-all".
Inductive node :=
| Text (s : string)
| Int (z : Z)
| Num (q : Q)
| ToFixed (q : Q) (digits : nat)
| El (tag : string) (className : string) (children : list node)
| Btn (b : button)
| Template (parts : list node).

(** [{c && x}]: the element when [c] is truthy, nothing otherwise. *)
Definition when (c : bool) (x : node) : list node := if c then [x] else [].

Definition or_dash (o : option string) : node :=
  match o with Some s => Text s | None => Text "-" end.

(** [Math.round(n/1024)] and [Math.floor(n/3600)] on an integer [n]. *)
Definition round_div_1024 (n : Z) : Z := ((n + 512) / 1024)%Z.
Definition floor_div_3600 (n : Z) : Z := (n / 3600)%Z.

Definition items (l : list string) : list node :=
  map (fun d => El "li" "" [Text d]) l.

(** Lines 81-84. *)
Definition actions (s : AppState) : list button :=
  [ {| label := "刷新信息"; disabled := false; onClick := refresh |};
    {| label := if testing s then "测试中…" else "网络测试";
       disabled := testing s; onClick := runTest |} ].

(** Lines 86-102. *)
Definition sys_section (s : AppState) : node :=
  El "section" ""
    (El "h2" "" [Text "系统信息"]
     :: match sys s with
        | None => [El "p" "" [Text "加载中…"]]
        | Some i =>
            [El "div" "grid"
               [ El "div" "" [El "b" "" [Text "操作系统"]; Text ": "; or_dash (os_name i)];
                 El "div" "" [El "b" "" [Text "主机名"]; Text ": "; or_dash (hostname i)];
                 El "div" "" [El "b" "" [Text "内核版本"]; Text ": "; or_dash (kernel_version i)];
                 El "div" "" [El "b" "" [Text "OS 版本"]; Text ": "; or_dash (os_version i)];
                 El "div" "" [El "b" "" [Text "CPU"]; Text ": "; Text (cpu_brand i)];
                 El "div" "" [El "b" "" [Text "物理核心"]; Text ": ";
                              match cpu_physical_cores i with
                              | Some n => Int n
                              | None => Text "-"
                              end];
                 El "div" "" [El "b" "" [Text "内存"]; Text ": ";
                              Int (round_div_1024 (used_memory i)); Text " / ";
                              Int (round_div_1024 (total_memory i)); Text " MB"];
                 El "div" "" [El "b" "" [Text "Swap"]; Text ": ";
                              Int (round_div_1024 (used_swap i)); Text " / ";
                              Int (round_div_1024 (total_swap i)); Text " MB"];
                 El "div" "" [El "b" "" [Text "运行时间"]; Text ": ";
                              Int (floor_div_3600 (uptime i)); Text " 小时"] ]]
        end).

(** Lines 104-126. *)
Definition audio_section (s : AppState) : node :=
  El "section" ""
    (El "h2" "" [Text "音频设备"]
     :: match audio s with
        | None => [El "p" "" [Text "加载中…"]]
        | Some a =>
            [ El "div" "grid two"
                [ El "div" "" [El "h3" "" [Text "输入设备"]; El "ul" "" (items (inputs a))];
                  El "div" "" [El "h3" "" [Text "输出设备"]; El "ul" "" (items (outputs a))] ];
              El "p" "muted"
                [ Text "默认输入: "; or_dash (default_input a);
                  Text "；默认输出: "; or_dash (default_output a) ] ]
        end).

Definition no_cameras : node := El "p" "" [Text "未检测到摄像头"].

(** Lines 128-132. *)
Definition cameras_section (s : AppState) : node :=
  El "section" ""
    (El "h2" "" [Text "摄像头"]
     :: when (Nat.eqb (List.length (cameras s)) 0) no_cameras
     ++ when (negb (Nat.eqb (List.length (cameras s)) 0)) (El "ul" "" (items (cameras s)))).

(** The text child that line 141 leaves between two children written on
    one source line: twelve spaces. *)
Definition gap : node := Text "            ".

(** Lines 134-144.  A template literal is one text child, [Template] of
    its parts.  The download row, the upload row and the error line stand
    on one source line (141), so a [gap] follows each of the first two.
    [{net.error && x}] renders [x] for a non-empty message and nothing
    visible for [null], [undefined] or the empty string. *)
Definition net_section (s : AppState) : node :=
  El "section" ""
    (El "h2" "" [Text "网络测试"]
     :: match net s with
        | None => [El "p" "muted" [Text "点击“网络测试”开始测量。"]]
        | Some r =>
            [El "div" "grid"
               ([ El "div" "" [El "b" "" [Text "外网 IP"]; Text ": "; or_dash (external_ip r)];
                  El "div" "" [El "b" "" [Text "HTTP 延迟"]; Text ": ";
                               match http_latency_ms r with
                               | Some q => Template [Num q; Text " ms"]
                               | None => Text "-"
                               end];
                  El "div" "" [El "b" "" [Text "下载速度"]; Text ": ";
                               match download_mbps r with
                               | Some q => Template [ToFixed q 2; Text " Mbps"]
                               | None => Text "-"
                               end];
                  gap;
                  El "div" "" [El "b" "" [Text "上传速度"]; Text ": ";
                               match upload_mbps r with
                               | Some q => Template [ToFixed q 2; Text " Mbps"]
                               | None => Text "-"
                               end];
                  gap ]
                ++ match error r with
                   | Some m => when (negb (String.eqb m ""))
                                 (El "div" "err" [Text "错误: "; Text m])
                   | None => []
                   end)]
        end).

Definition render (s : AppState) : node :=
  El "div" "container"
    [ El "h1" "" [Text "Hisen Desk"];
      El "div" "actions" (map Btn (actions s));
      sys_section s;
      audio_section s;
      cameras_section s;
      net_section s ].

(** ** Events *)

(** The user clicks the [i]-th button of the actions bar, or the backend
    settles the call the [i]-th suspended handler awaits. *)
Inductive event :=
| Click (i : nat)
| Settle (i : nat) (c : cmd) (r : settled (reply c)).

Definition remove_nth {A} (i : nat) (l : list A) : list A :=
  firstn i l ++ skipn (S i) l.

Definition cast_reply {c c' : cmd} (h : c = c') (r : settled (reply c))
  : settled (reply c') :=
  eq_rect c (fun x => settled (reply x)) r c' h.

(** A click on a disabled button fires no handler; a settlement that
    matches no suspended handler changes nothing. *)
Definition step (ev : event) (w : world) : world :=
  match ev with
  | Click i =>
      match nth_error (actions (st (w_env w))) i with
      | Some b => if disabled b then w else spawn (onClick b) (w_env w) (pending w)
      | None => w
      end
  | Settle i c r =>
      match nth_error (pending w) i with
      | Some t =>
          match cmd_eq_dec c (awaited t) with
          | left h => spawn (resume t (cast_reply h r)) (w_env w) (remove_nth i (pending w))
          | right _ => w
          end
      | None => w
      end
  end.

Definition run (evs : list event) (w : world) : world :=
  fold_left (fun w ev => step ev w) evs w.

(** The first render shows [initial_state]; the effect of lines 74-76
    then calls [refresh] once. *)
Definition env0 : env := {| st := initial_state; console := []; calls := [] |}.

Definition startup : world := spawn refresh env0 [].

(** ** The backend queries *)

Module Backend.

(** Modelled from the spec: the outcome of one sub-measurement or platform
    read.  The Rust backend (src-tauri/src/main.rs) that implements the four
    commands is not among the sources; spec section 9 describes each
    sub-measurement as success-with-value or failure-with-reason. *)
Inductive probe (A : Type) : Type :=
| Succeeded (a : A)
| Failed (reason : string).

Arguments Succeeded {A} a.
Arguments Failed {A} reason.

(** Modelled from the spec: what the three fixed endpoints answer during
    one invocation of [run_network_test] (section 4.3): the body of the
    external-IP response, the round trip in milliseconds, and the bytes
    received with the seconds the transfer took. *)
Record network := {
  ip_lookup : probe string;
  latency_check : probe Q;
  download : probe (Z * Q)
}.

(** Modelled from the spec: white space, for "the response body (trimmed)". *)
Definition is_space (a : ascii) : bool :=
  let n := nat_of_ascii a in
  (Nat.eqb n 32 || (Nat.leb 9 n && Nat.leb n 13))%bool.

(** Modelled from the spec: "the response body (trimmed)", leading part. *)
Fixpoint trim_start (s : string) : string :=
  match s with
  | EmptyString => EmptyString
  | String a s' => if is_space a then trim_start s' else s
  end.

(** Modelled from the spec: "the response body (trimmed)", trailing part. *)
Fixpoint trim_end (s : string) : string :=
  match s with
  | EmptyString => EmptyString
  | String a s' =>
      match trim_end s' with
      | EmptyString => if is_space a then EmptyString else String a EmptyString
      | t => String a t
      end
  end.

(** Modelled from the spec: "the response body (trimmed)". *)
Definition trim (s : string) : string := trim_end (trim_start s).

(** Modelled from the spec: the output record being assembled together
    with the running error message, kept as the failure reasons appended
    so far (section 4.3). *)
Record assembling := {
  result : NetTestResult;
  failures : list string
}.

(** Modelled from the spec: the record before any measurement; every field
    is null. *)
Definition nothing_measured : assembling :=
  {| result := {| external_ip := None; http_latency_ms := None;
                  download_mbps := None; upload_mbps := None; error := None |};
     failures := [] |}.

(** Modelled from the spec: "download_mbps = (bytes_received x 8) /
    (elapsed_seconds x 1_000_000)" (section 4.3, step 3). *)
Definition throughput_mbps (bytes_received : Z) (elapsed_seconds : Q) : Q :=
  ((inject_Z bytes_received * 8) / (elapsed_seconds * 1000000))%Q.

(** Modelled from the spec: step 1 of section 4.3, the external IP lookup. *)
Definition measure_ip (p : probe string) (a : assembling) : assembling :=
  match p with
  | Succeeded body =>
      {| result := {| external_ip := Some (trim body);
                      http_latency_ms := http_latency_ms (result a);
                      download_mbps := download_mbps (result a);
                      upload_mbps := upload_mbps (result a);
                      error := error (result a) |};
         failures := failures a |}
  | Failed why => {| result := result a; failures := failures a ++ [why] |}
  end.

(** Modelled from the spec: step 2 of section 4.3, the latency measurement. *)
Definition measure_latency (p : probe Q) (a : assembling) : assembling :=
  match p with
  | Succeeded ms =>
      {| result := {| external_ip := external_ip (result a);
                      http_latency_ms := Some ms;
                      download_mbps := download_mbps (result a);
                      upload_mbps := upload_mbps (result a);
                      error := error (result a) |};
         failures := failures a |}
  | Failed why => {| result := result a; failures := failures a ++ [why] |}
  end.

(** Modelled from the spec: step 3 of section 4.3, the download throughput
    measurement. *)
Definition measure_download (p : probe (Z * Q)) (a : assembling) : assembling :=
  match p with
  | Succeeded (bytes_received, elapsed_seconds) =>
      {| result := {| external_ip := external_ip (result a);
                      http_latency_ms := http_latency_ms (result a);
                      download_mbps := Some (throughput_mbps bytes_received elapsed_seconds);
                      upload_mbps := upload_mbps (result a);
                      error := error (result a) |};
         failures := failures a |}
  | Failed why => {| result := result a; failures := failures a ++ [why] |}
  end.

(** Modelled from the spec: the separator of the concatenated failure
    messages, left to the implementation by section 4.3. *)
Definition separator : string := "; ".

(** Modelled from the spec: "Final error field is null only if all three
    sub-measurements succeeded; otherwise it is the concatenation of the
    failure messages from whichever sub-measurements failed". *)
Definition finish (a : assembling) : NetTestResult :=
  {| external_ip := external_ip (result a);
     http_latency_ms := http_latency_ms (result a);
     download_mbps := download_mbps (result a);
     upload_mbps := upload_mbps (result a);
     error := match failures a with
              | [] => None
              | msgs => Some (String.concat separator msgs)
              end |}.

(** Modelled from the spec: [run_network_test] of section 4.3, the three
    measurements in sequence; the command itself always answers with the
    record (section 6: "embedded in error field; never throws"). *)
Definition run_network_test (n : network) : settled NetTestResult :=
  inr (finish
         (measure_download (download n)
            (measure_latency (latency_check n)
               (measure_ip (ip_lookup n) nothing_measured)))).

(** Modelled from the spec: the facts the host reports to
    [get_system_info] (section 4.1); a reading the host cannot give is
    absent.  Sizes are unsigned integers, kilobytes and seconds. *)
Record host := {
  host_os_name : option string;
  host_hostname : option string;
  host_kernel_version : option string;
  host_os_version : option string;
  host_cpu_brand : option string;
  host_physical_cores : option N;
  host_total_memory : N;
  host_used_memory : N;
  host_total_swap : N;
  host_used_swap : N;
  host_uptime : N;
  host_ifaces : list (string * N * N)
}.

(** Modelled from the spec: [get_system_info] of section 4.1, "always
    succeeds as a query (values that cannot be determined on the host become
    null/omitted rather than causing failure)"; the CPU brand is "always
    present, may be empty". *)
Definition get_system_info (h : host) : settled SystemInfo :=
  inr {| os_name := host_os_name h;
         hostname := host_hostname h;
         kernel_version := host_kernel_version h;
         os_version := host_os_version h;
         cpu_brand := match host_cpu_brand h with Some b => b | None => "" end;
         cpu_physical_cores := option_map Z.of_N (host_physical_cores h);
         total_memory := Z.of_N (host_total_memory h);
         used_memory := Z.of_N (host_used_memory h);
         total_swap := Z.of_N (host_total_swap h);
         used_swap := Z.of_N (host_used_swap h);
         uptime := Z.of_N (host_uptime h);
         network_ifaces :=
           map (fun i => {| name := fst (fst i);
                            received := Z.of_N (snd (fst i));
                            transmitted := Z.of_N (snd i) |})
               (host_ifaces h) |}.

(** Modelled from the spec: the platform's device discovery (section 4.2);
    each enumeration either fails as a whole or gives its lists. *)
Record platform := {
  enumerate_audio : probe AudioDevices;
  enumerate_cameras : probe (list string)
}.

(** Modelled from the spec: [list_audio_devices] of section 4.2; a failed
    enumeration "propagates as a component-level error". *)
Definition list_audio_devices (p : platform) : settled AudioDevices :=
  match enumerate_audio p with
  | Succeeded a => inr a
  | Failed why => inl why
  end.

(** Modelled from the spec: [list_cameras] of section 4.2. *)
Definition list_cameras (p : platform) : settled (list string) :=
  match enumerate_cameras p with
  | Succeeded l => inr l
  | Failed why => inl why
  end.

(** Modelled from the spec: whether a sub-measurement succeeded. *)
Definition succeeded {A} (p : probe A) : bool :=
  match p with Succeeded _ => true | Failed _ => false end.

(** Modelled from the spec: the failure message of a sub-measurement, if
    it failed. *)
Definition reason_of {A} (p : probe A) : list string :=
  match p with Succeeded _ => [] | Failed why => [why] end.

(** Modelled from the spec: "the failure messages from whichever
    sub-measurements failed" (section 4.3), in the order measured. *)
Definition failed_reasons (n : network) : list string :=
  reason_of (ip_lookup n) ++ reason_of (latency_check n) ++ reason_of (download n).

End Backend.

(** Modelled from the spec: the backend the shell talks to, one answer per
    command (section 6). *)
Definition serve (h : Backend.host) (p : Backend.platform) (n : Backend.network)
  : backend :=
  fun c =>
    match c with
    | get_system_info => Backend.get_system_info h
    | list_audio_devices => Backend.list_audio_devices p
    | list_cameras => Backend.list_cameras p
    | run_network_test => Backend.run_network_test n
    end.

(** ** Program points and observations *)

(** The handler suspended at the head await of [p], if [p] starts there. *)
Definition task_of (p : prog unit) : option task :=
  match p with
  | Await c k => Some {| awaited := c; resume := k |}
  | _ => None
  end.

(** What is left of [refresh] once [setSys] has run (lines 52-58). *)
Definition refresh_after_sys : prog unit :=
  try_catch
    (a <- invokeCmd list_audio_devices ;;
     setAudio a ;;
     cams <- invokeCmd list_cameras ;;
     setCameras cams)
    (fun e => console_error "refresh error" e).

(** What is left of [refresh] once [setAudio] has run (lines 54-58). *)
Definition refresh_after_audio : prog unit :=
  try_catch
    (cams <- invokeCmd list_cameras ;;
     setCameras cams)
    (fun e => console_error "refresh error" e).

(** What is left of [runTest] after its first two statements (lines 64-71). *)
Definition runTest_try : prog unit :=
  try_finally
    (try_catch
       (r <- invokeCmd run_network_test ;;
        setNet (Some r))
       (fun e => setNet (Some (error_only e))))
    (setTesting false).

(** The four awaits of the shell. *)
Inductive point := AtSys | AtAudio | AtCameras | AtTest.

Definition residual (pt : point) : prog unit :=
  match pt with
  | AtSys => refresh
  | AtAudio => refresh_after_sys
  | AtCameras => refresh_after_audio
  | AtTest => runTest_try
  end.

Definition idle : task :=
  {| awaited := get_system_info; resume := fun _ => Ret tt |}.

(** The handler suspended at each point ([idle] is never taken, see
    [task_of_residual]). *)
Definition task_at (pt : point) : task :=
  match task_of (residual pt) with
  | Some t => t
  | None => idle
  end.

Definition command_at (pt : point) : cmd := awaited (task_at pt).

Definition known (t : task) : Prop := exists pt, t = task_at pt.

(** What resuming the handler suspended at [pt] does to the environment,
    and the point it suspends at next, if any. *)
Definition continue_ (pt : point)
  : settled (reply (command_at pt)) -> env -> env * option point :=
  match pt return settled (reply (command_at pt)) -> env -> env * option point with
  | AtSys => fun r e =>
      match r with
      | inl x => (logged "refresh error" x e, None)
      | inr s => (invoked list_audio_devices (set_st (with_sys s) e), Some AtAudio)
      end
  | AtAudio => fun r e =>
      match r with
      | inl x => (logged "refresh error" x e, None)
      | inr a => (invoked list_cameras (set_st (with_audio a) e), Some AtCameras)
      end
  | AtCameras => fun r e =>
      match r with
      | inl x => (logged "refresh error" x e, None)
      | inr cams => (set_st (with_cameras cams) e, None)
      end
  | AtTest => fun r e =>
      (set_st (with_testing false)
         (set_st (with_net (Some match r with
                                 | inl x => error_only x
                                 | inr v => v
                                 end)) e), None)
  end.

Definition awaits (c : cmd) (t : task) : bool := cmd_eqb (awaited t) c.

Definition waiting (c : cmd) (ts : list task) : nat :=
  List.length (filter (awaits c) ts).

(** The number of calls of [c] the backend has not settled yet. *)
Definition in_flight (c : cmd) (w : world) : nat := waiting c (pending w).

(** The number of calls of [c] made so far. *)
Definition invocations (c : cmd) (e : env) : nat :=
  count_occ cmd_eq_dec (calls e) c.

Definition clicks (i : nat) (evs : list event) : nat :=
  List.length (filter (fun ev => match ev with Click j => Nat.eqb i j | _ => false end) evs).

Definition fulfilled {A} (r : settled A) : bool :=
  match r with inr _ => true | inl _ => false end.

(** The commands one run of [refresh] invokes against [b], in order. *)
Definition refresh_calls (b : backend) : list cmd :=
  get_system_info ::
  (if fulfilled (b get_system_info) then
     list_audio_devices ::
     (if fulfilled (b list_audio_devices) then [list_cameras] else [])
   else []).

(** What holds of every world the event loop reaches after [evs]. *)
Record invariant (evs : list event) (w : world) : Prop := {
  inv_known : Forall known (pending w);
  inv_testing :
    in_flight run_network_test w = if testing (st (w_env w)) then 1%nat else 0%nat;
  inv_sys :
    invocations get_system_info (w_env w) = S (clicks 0 evs);
  inv_audio :
    (invocations list_audio_devices (w_env w) + in_flight get_system_info w
     <= invocations get_system_info (w_env w))%nat;
  inv_cameras :
    (invocations list_cameras (w_env w) + in_flight list_audio_devices w
     <= invocations list_audio_devices (w_env w))%nat;
  inv_net :
    (invocations run_network_test (w_env w) <= clicks 1 evs)%nat
}.

(** [n] is shown directly inside [x]. *)
Definition shows (n : node) (x : node) : Prop :=
  match x with
  | El _ _ children => In n children
  | _ => False
  end.

(** ** Sample hosts *)

Definition laptop : Backend.host :=
  {| Backend.host_os_name := Some "macOS";
     Backend.host_hostname := Some "desk";
     Backend.host_kernel_version := None;
     Backend.host_os_version := Some "14.5";
     Backend.host_cpu_brand := Some "Apple M2";
     Backend.host_physical_cores := Some 8%N;
     Backend.host_total_memory := 16777216%N;
     Backend.host_used_memory := 9437184%N;
     Backend.host_total_swap := 0%N;
     Backend.host_used_swap := 0%N;
     Backend.host_uptime := 7300%N;
     Backend.host_ifaces := [("en0", 1024%N, 2048%N)] |}.

Definition mic_and_speakers : AudioDevices :=
  {| inputs := ["Mic"]; outputs := ["Speakers"];
     default_input := Some "Mic"; default_output := None |}.

Definition devices_up : Backend.platform :=
  {| Backend.enumerate_audio := Backend.Succeeded mic_and_speakers;
     Backend.enumerate_cameras := Backend.Succeeded ["FaceTime HD"] |}.

Definition audio_down : Backend.platform :=
  {| Backend.enumerate_audio := Backend.Failed "permission denied";
     Backend.enumerate_cameras := Backend.Succeeded ["FaceTime HD"] |}.

Definition cameras_down : Backend.platform :=
  {| Backend.enumerate_audio := Backend.Succeeded mic_and_speakers;
     Backend.enumerate_cameras := Backend.Failed "driver unavailable" |}.

Definition no_cameras_attached : Backend.platform :=
  {| Backend.enumerate_audio := Backend.Succeeded mic_and_speakers;
     Backend.enumerate_cameras := Backend.Succeeded [] |}.

Definition online : Backend.network :=
  {| Backend.ip_lookup := Backend.Succeeded " 203.0.113.7
";
     Backend.latency_check := Backend.Succeeded (42 # 1);
     Backend.download := Backend.Succeeded (3000000%Z, 3 # 2) |}.

Definition ip_down : Backend.network :=
  {| Backend.ip_lookup := Backend.Failed "ip: timeout";
     Backend.latency_check := Backend.Succeeded (42 # 1);
     Backend.download := Backend.Succeeded (3000000%Z, 3 # 2) |}.

Definition offline : Backend.network :=
  {| Backend.ip_lookup := Backend.Failed "ip: timeout";
     Backend.latency_check := Backend.Failed "latency: dns";
     Backend.download := Backend.Failed "download: reset" |}.

(** ** What a settlement delivers *)

(** The value event [ev] hands, in world [w], to a suspended handler that
    awaits [c]: the reply of a settlement that reaches such a handler and
    fulfils its call. *)
Definition fulfilled_reply (c : cmd) (ev : event) (w : world) : option (reply c) :=
  match ev with
  | Click _ => None
  | Settle i c' r =>
      match nth_error (pending w) i with
      | Some t =>
          match cmd_eq_dec c' (awaited t), cmd_eq_dec c' c with
          | left _, left h =>
              match cast_reply h r with
              | inr v => Some v
              | inl _ => None
              end
          | _, _ => None
          end
      | None => None
      end
  end.

(** The replies to [c] delivered while [evs] run from [w], oldest first. *)
Fixpoint deliveries (c : cmd) (evs : list event) (w : world) : list (reply c) :=
  match evs with
  | [] => []
  | ev :: evs' =>
      match fulfilled_reply c ev w with
      | Some v => [v]
      | None => []
      end ++ deliveries c evs' (step ev w)
  end.

(** The rows of lines 97-99 of the system section. *)
Definition memory_row (used total : Z) : node :=
  El "div" "" [El "b" "" [Text "内存"]; Text ": ";
               Int used; Text " / "; Int total; Text " MB"].

Definition swap_row (used total : Z) : node :=
  El "div" "" [El "b" "" [Text "Swap"]; Text ": ";
               Int used; Text " / "; Int total; Text " MB"].

Definition uptime_row (hours : Z) : node :=
  El "div" "" [El "b" "" [Text "运行时间"]; Text ": "; Int hours; Text " 小时"].

(** [r] is the integer nearest to [n / 1024], the upper one of two. *)
Definition nearest_1024 (n r : Z) : Prop := (-512 <= n - 1024 * r < 512)%Z.

(** ** Further observations *)

(** The placeholder of lines 88 and 106, and the prompt of line 136. *)
Definition loading : node := El "p" "" [Text "加载中…"].
Definition prompt : node := El "p" "muted" [Text "点击“网络测试”开始测量。"].

(** The refreshes started and not yet finished: each waits in exactly one
    of its three awaits. *)
Definition refreshes_in_flight (w : world) : nat :=
  (in_flight get_system_info w + in_flight list_audio_devices w
   + in_flight list_cameras w)%nat.

(** What the state variables of a reachable world have in common. *)
Record display_invariant (w : world) : Prop := {
  dv_cleared : testing (st (w_env w)) = true -> net (st (w_env w)) = None;
  dv_audio_call :
    (0 < in_flight list_audio_devices w)%nat -> sys (st (w_env w)) <> None;
  dv_cameras_call :
    (0 < in_flight list_cameras w)%nat -> audio (st (w_env w)) <> None;
  dv_audio : audio (st (w_env w)) <> None -> sys (st (w_env w)) <> None;
  dv_cameras : cameras (st (w_env w)) <> [] -> audio (st (w_env w)) <> None
}.

(** What the console of a reachable world holds after [evs]. *)
Record console_invariant (evs : list event) (w : world) : Prop := {
  cv_messages :
    Forall (fun entry => fst entry = "refresh error") (console (w_env w));
  cv_count :
    (List.length (console (w_env w)) + refreshes_in_flight w
     <= S (clicks 0 evs))%nat
}.

(** A context without the Tauri bridge (the browser context of line 3):
    every call of [invokeCmd] is rejected with [x]. *)
Definition no_bridge (x : exn) : backend := fun _ => inl x.

(** A reply of get_system_info, told apart by its uptime. *)
Definition sample_info (up : Z) : SystemInfo :=
  {| os_name := Some "macOS"; hostname := Some "desk"; kernel_version := None;
     os_version := Some "14.5"; cpu_brand := "Apple M2";
     cpu_physical_cores := Some 8%Z;
     total_memory := 16777216; used_memory := 9437184;
     total_swap := 0; used_swap := 0; uptime := up; network_ifaces := [] |}.

(** An event a context without the bridge can produce: a click, or the
    rejection of a call. *)
Definition bridgeless (ev : event) : bool :=
  match ev with
  | Click _ => true
  | Settle _ _ (inl _) => true
  | Settle _ _ (inr _) => false
  end.

(** What holds of the worlds reached by such events alone. *)
Record nothing_loaded (w : world) : Prop := {
  nl_pending :
    Forall (fun t => t = task_at AtSys \/ t = task_at AtTest) (pending w);
  nl_sys : sys (st (w_env w)) = None;
  nl_audio : audio (st (w_env w)) = None;
  nl_cameras : cameras (st (w_env w)) = [];
  nl_audio_calls : invocations list_audio_devices (w_env w) = 0%nat;
  nl_cameras_calls : invocations list_cameras (w_env w) = 0%nat;
  nl_net :
    net (st (w_env w)) = None
    \/ exists x, net (st (w_env w)) = Some (error_only x)
}.

(** * Properties *)

(** ** One handler on its own *)

(** [refresh] against a backend, case by case on the first rejection. *)
Lemma exec_refresh (b : backend) (e : env) :
  exec b refresh e =
  match b get_system_info with
  | inl x => (logged "refresh error" x (invoked get_system_info e), None)
  | inr s =>
      let e1 := set_st (with_sys s) (invoked get_system_info e) in
      match b list_audio_devices with
      | inl x => (logged "refresh error" x (invoked list_audio_devices e1), None)
      | inr a =>
          let e2 := set_st (with_audio a) (invoked list_audio_devices e1) in
          match b list_cameras with
          | inl x => (logged "refresh error" x (invoked list_cameras e2), None)
          | inr cams => (set_st (with_cameras cams) (invoked list_cameras e2), None)
          end
      end
  end.
Proof.
  unfold refresh; cbn.
  destruct (b get_system_info) as [x|s]; cbn; [reflexivity|].
  destruct (b list_audio_devices) as [x|a]; cbn; [reflexivity|].
  destruct (b list_cameras) as [x|cams]; reflexivity.
Qed.

(** [runTest] against a backend: both exits store a record and clear the
    flag. *)
Lemma exec_runTest (b : backend) (e : env) :
  exec b runTest e =
  (set_st (with_testing false)
     (set_st (with_net (Some match b run_network_test with
                             | inl x => error_only x
                             | inr r => r
                             end))
        (invoked run_network_test
           (set_st (with_net None) (set_st (with_testing true) e)))),
   None).
Proof.
  unfold runTest; cbn.
  destruct (b run_network_test) as [x|r]; reflexivity.
Qed.

(** ** The event loop *)

Lemma task_of_residual (pt : point) : task_of (residual pt) = Some (task_at pt).
Proof. destruct pt; reflexivity. Qed.

Lemma command_at_cases (pt : point) :
  command_at pt =
  match pt with
  | AtSys => get_system_info
  | AtAudio => list_audio_devices
  | AtCameras => list_cameras
  | AtTest => run_network_test
  end.
Proof. destruct pt; reflexivity. Qed.

Lemma run_sync_resume (pt : point) (r : settled (reply (command_at pt))) (e : env) :
  run_sync (resume (task_at pt) r) e =
  (fst (continue_ pt r e),
   match snd (continue_ pt r e) with
   | Some pt' => Suspended (task_at pt')
   | None => Finished
   end).
Proof. destruct pt; destruct r; reflexivity. Qed.

Lemma run_sync_refresh (e : env) :
  run_sync refresh e = (invoked get_system_info e, Suspended (task_at AtSys)).
Proof. reflexivity. Qed.

Lemma run_sync_runTest (e : env) :
  run_sync runTest e =
  (invoked run_network_test (set_st (with_net None) (set_st (with_testing true) e)),
   Suspended (task_at AtTest)).
Proof. reflexivity. Qed.

Lemma cast_reply_refl (c : cmd) (h : c = c) (r : settled (reply c)) :
  cast_reply h r = r.
Proof.
  rewrite (Eqdep_dec.UIP_dec cmd_eq_dec h eq_refl). reflexivity.
Qed.

(** Settling the call a known handler awaits resumes that handler. *)
Lemma step_settle (w : world) (i : nat) (pt : point)
      (r : settled (reply (command_at pt))) :
  nth_error (pending w) i = Some (task_at pt) ->
  step (Settle i (command_at pt) r) w =
  {| w_env := fst (continue_ pt r (w_env w));
     pending := remove_nth i (pending w)
                ++ match snd (continue_ pt r (w_env w)) with
                   | Some pt' => [task_at pt']
                   | None => []
                   end |}.
Proof.
  intros H. unfold step. rewrite H.
  destruct (cmd_eq_dec (command_at pt) (awaited (task_at pt))) as [h|n];
    [|exfalso; apply n; reflexivity].
  rewrite cast_reply_refl. unfold spawn. rewrite run_sync_resume.
  destruct (snd (continue_ pt r (w_env w))); reflexivity.
Qed.

(** A settlement for another command than the awaited one is ignored. *)
Lemma step_settle_other (w : world) (i : nat) (t : task) (c : cmd)
      (r : settled (reply c)) :
  nth_error (pending w) i = Some t -> c <> awaited t ->
  step (Settle i c r) w = w.
Proof.
  intros H n. unfold step. rewrite H.
  destruct (cmd_eq_dec c (awaited t)); [contradiction|reflexivity].
Qed.

Lemma step_settle_none (w : world) (i : nat) (c : cmd) (r : settled (reply c)) :
  nth_error (pending w) i = None -> step (Settle i c r) w = w.
Proof. intros H. unfold step. rewrite H. reflexivity. Qed.

Lemma step_click_refresh (w : world) :
  step (Click 0) w =
  {| w_env := invoked get_system_info (w_env w);
     pending := pending w ++ [task_at AtSys] |}.
Proof. reflexivity. Qed.

Lemma step_click_runTest (w : world) :
  step (Click 1) w =
  if testing (st (w_env w)) then w
  else {| w_env := invoked run_network_test
                     (set_st (with_net None) (set_st (with_testing true) (w_env w)));
          pending := pending w ++ [task_at AtTest] |}.
Proof.
  unfold step; cbn. destruct (testing (st (w_env w))); reflexivity.
Qed.

Lemma step_click_elsewhere (w : world) (i : nat) :
  step (Click (S (S i))) w = w.
Proof. unfold step; cbn. destruct i; reflexivity. Qed.

Lemma run_snoc (evs : list event) (ev : event) (w : world) :
  run (evs ++ [ev]) w = step ev (run evs w).
Proof. unfold run. rewrite fold_left_app. reflexivity. Qed.

(** ** Counting suspended handlers and calls *)

Lemma waiting_app (c : cmd) (l l' : list task) :
  waiting c (l ++ l') = (waiting c l + waiting c l')%nat.
Proof. unfold waiting. rewrite filter_app, length_app. reflexivity. Qed.

Lemma remove_nth_split {A} (i : nat) (l : list A) (t : A) :
  nth_error l i = Some t ->
  exists l1 l2, l = l1 ++ t :: l2 /\ remove_nth i l = l1 ++ l2.
Proof.
  intros H. destruct (nth_error_split l i H) as (l1 & l2 & -> & <-).
  exists l1, l2. split; [reflexivity|].
  unfold remove_nth.
  rewrite firstn_app, Nat.sub_diag, firstn_all, firstn_O, app_nil_r.
  f_equal. clear H. induction l1 as [|a l1 IH]; [reflexivity|exact IH].
Qed.

Lemma waiting_remove_nth (c : cmd) (i : nat) (l : list task) (t : task) :
  nth_error l i = Some t ->
  waiting c l = (waiting c (remove_nth i l) + if awaits c t then 1 else 0)%nat.
Proof.
  intros H. destruct (remove_nth_split i l t H) as (l1 & l2 & -> & ->).
  rewrite !waiting_app. unfold waiting at 2. cbn [filter].
  destruct (awaits c t); cbn [List.length]; fold (waiting c l2); lia.
Qed.

Lemma Forall_remove_nth {A} (P : A -> Prop) (i : nat) (l : list A) (t : A) :
  nth_error l i = Some t -> Forall P l -> Forall P (remove_nth i l).
Proof.
  intros H F. destruct (remove_nth_split i l t H) as (l1 & l2 & -> & ->).
  apply Forall_app in F. destruct F as [F1 F2].
  apply Forall_app. split; [assumption|]. inversion F2; assumption.
Qed.

Lemma invocations_invoked (c c' : cmd) (e : env) :
  invocations c (invoked c' e) =
  (invocations c e + if cmd_eq_dec c' c then 1 else 0)%nat.
Proof.
  unfold invocations, invoked; cbn [calls]. rewrite count_occ_app.
  cbn [count_occ]. destruct (cmd_eq_dec c' c); reflexivity.
Qed.

Lemma clicks_snoc (i : nat) (evs : list event) (ev : event) :
  clicks i (evs ++ [ev]) =
  (clicks i evs + match ev with
                  | Click j => if Nat.eqb i j then 1 else 0
                  | Settle _ _ _ => 0
                  end)%nat.
Proof.
  unfold clicks. rewrite filter_app, length_app. cbn [filter].
  destruct ev as [j|]; [destruct (Nat.eqb i j)|]; reflexivity.
Qed.

(** ** The invariant of the event loop *)

Lemma invocations_set_st (c : cmd) (f : AppState -> AppState) (e : env) :
  invocations c (set_st f e) = invocations c e.
Proof. reflexivity. Qed.

Lemma invocations_logged (c : cmd) (m : string) (x : exn) (e : env) :
  invocations c (logged m x e) = invocations c e.
Proof. reflexivity. Qed.

Lemma waiting_one (c : cmd) (pt : point) :
  waiting c [task_at pt] = if cmd_eq_dec (command_at pt) c then 1%nat else 0%nat.
Proof.
  unfold waiting, awaits, cmd_eqb, command_at; cbn [filter].
  destruct (cmd_eq_dec (awaited (task_at pt)) c); reflexivity.
Qed.

Lemma waiting_nil (c : cmd) : waiting c [] = 0%nat.
Proof. reflexivity. Qed.

Lemma awaits_task_at (c : cmd) (pt : point) :
  awaits c (task_at pt) = if cmd_eq_dec (command_at pt) c then true else false.
Proof. reflexivity. Qed.

Create Rewrite HintDb shell.
#[local] Hint Rewrite invocations_invoked invocations_set_st invocations_logged
  waiting_app waiting_one waiting_nil awaits_task_at clicks_snoc : shell.

Ltac decide_cmds :=
  repeat match goal with
         | |- context [cmd_eq_dec ?a ?b] =>
             let d := eval cbv in (cmd_eq_dec a b) in
             change (cmd_eq_dec a b) with d; cbv iota
         | H : context [cmd_eq_dec ?a ?b] |- _ =>
             let d := eval cbv in (cmd_eq_dec a b) in
             change (cmd_eq_dec a b) with d in H; cbv iota in H
         end.

Ltac shell_norm :=
  unfold in_flight in *;
  cbn [w_env pending fst snd continue_ Nat.eqb] in *;
  autorewrite with shell in *;
  decide_cmds;
  cbn [st set_st logged invoked testing with_sys with_audio with_cameras
       with_testing with_net Nat.eqb] in *.

Lemma invariant_startup : invariant [] startup.
Proof.
  split; try reflexivity; try (cbv; lia).
  repeat constructor. exists AtSys. reflexivity.
Qed.

Lemma known_task_at (pt : point) : known (task_at pt).
Proof. exists pt. reflexivity. Qed.

Lemma invariant_stutter (evs : list event) (ev : event) (w : world) :
  clicks 0 (evs ++ [ev]) = clicks 0 evs ->
  (clicks 1 evs <= clicks 1 (evs ++ [ev]))%nat ->
  invariant evs w -> invariant (evs ++ [ev]) w.
Proof.
  intros H0 H1 [K T S A C N]. split; try assumption; lia.
Qed.

Lemma invariant_step (evs : list event) (ev : event) (w : world) :
  invariant evs w -> invariant (evs ++ [ev]) (step ev w).
Proof.
  intros I.
  destruct ev as [[|[|j]]|i c r].
  - (* the refresh button *)
    destruct I as [K T S A C N].
    rewrite step_click_refresh.
    split; shell_norm; try lia.
    apply Forall_app; split; [assumption|]. repeat constructor. apply known_task_at.
  - (* the run-test button *)
    rewrite step_click_runTest.
    destruct (testing (st (w_env w))) eqn:B.
    + apply invariant_stutter; [ | | assumption]; shell_norm; lia.
    + destruct I as [K T S A C N]. rewrite B in T.
      split; shell_norm; try lia.
      apply Forall_app; split; [assumption|]. repeat constructor. apply known_task_at.
  - (* no third button *)
    rewrite step_click_elsewhere.
    apply invariant_stutter; [ | | assumption]; shell_norm; lia.
  - (* the backend settles a call *)
    assert (Q0 : clicks 0 (evs ++ [Settle i c r]) = clicks 0 evs)
      by (autorewrite with shell; lia).
    assert (Q1 : clicks 1 (evs ++ [Settle i c r]) = clicks 1 evs)
      by (autorewrite with shell; lia).
    destruct (nth_error (pending w) i) as [t|] eqn:E.
    2:{ rewrite step_settle_none by assumption.
        apply invariant_stutter; [assumption|lia|assumption]. }
    assert (Kt : known t).
    { apply (proj1 (Forall_forall known (pending w)) (inv_known _ _ I)).
      eapply nth_error_In; eassumption. }
    destruct Kt as [pt ->].
    destruct (cmd_eq_dec c (command_at pt)) as [->|ne].
    2:{ rewrite (step_settle_other _ _ _ _ _ E ne).
        apply invariant_stutter; [assumption|lia|assumption]. }
    rewrite (step_settle _ _ _ _ E).
    destruct I as [K T S A C N].
    pose proof (Forall_remove_nth known i _ _ E K) as K'.
    pose proof (waiting_remove_nth get_system_info i _ _ E) as W1.
    pose proof (waiting_remove_nth list_audio_devices i _ _ E) as W2.
    pose proof (waiting_remove_nth run_network_test i _ _ E) as W3.
    destruct pt; destruct r as [x|v]; split; shell_norm;
      try lia;
      try (apply Forall_app; split; [assumption|]; repeat constructor; apply known_task_at).
    all: destruct (testing (st (w_env w))); lia.
Qed.

Lemma invariant_run (evs : list event) : invariant evs (run evs startup).
Proof.
  induction evs as [|ev evs IH] using rev_ind.
  - exact invariant_startup.
  - rewrite run_snoc. apply invariant_step. exact IH.
Qed.

(** ** The refresh handler *)

(** C9: in every run of [refresh] the three queries are awaited one after
    the other inside one try block.  When one of them is rejected, none of
    the later queries is invoked, every state variable not yet assigned in
    that run keeps its previous value, and the error only reaches the
    console: the handler's promise is not rejected and [testing] and [net]
    are untouched.  The same holds step by step in the event loop: a
    rejection settles the suspended [refresh] without invoking anything or
    changing any state variable. *)
Theorem refresh_stops_at_first_rejection (b : backend) (e : env) :
  let e' := fst (exec b refresh e) in
  snd (exec b refresh e) = None /\
  testing (st e') = testing (st e) /\
  net (st e') = net (st e) /\
  match b get_system_info with
  | inl x =>
      calls e' = calls e ++ [get_system_info] /\
      st e' = st e /\
      console e' = console e ++ [("refresh error", x)]
  | inr s =>
      match b list_audio_devices with
      | inl x =>
          calls e' = calls e ++ [get_system_info; list_audio_devices] /\
          st e' = with_sys s (st e) /\
          console e' = console e ++ [("refresh error", x)]
      | inr a =>
          match b list_cameras with
          | inl x =>
              calls e' = calls e ++ [get_system_info; list_audio_devices; list_cameras] /\
              st e' = with_audio a (with_sys s (st e)) /\
              console e' = console e ++ [("refresh error", x)]
          | inr cams =>
              calls e' = calls e ++ [get_system_info; list_audio_devices; list_cameras] /\
              st e' = with_cameras cams (with_audio a (with_sys s (st e))) /\
              console e' = console e
          end
      end
  end /\
  forall (w : world) (i : nat) (pt : point) (x : exn),
    nth_error (pending w) i = Some (task_at pt) ->
    pt <> AtTest ->
    let w' := step (Settle i (command_at pt) (inl x)) w in
    pending w' = remove_nth i (pending w) /\
    calls (w_env w') = calls (w_env w) /\
    st (w_env w') = st (w_env w) /\
    console (w_env w') = console (w_env w) ++ [("refresh error", x)].
Proof.
  cbv zeta. rewrite exec_refresh.
  repeat split.
  - destruct (b get_system_info); [reflexivity|].
    destruct (b list_audio_devices); [reflexivity|].
    destruct (b list_cameras); reflexivity.
  - destruct (b get_system_info); [reflexivity|].
    destruct (b list_audio_devices); [reflexivity|].
    destruct (b list_cameras); reflexivity.
  - destruct (b get_system_info); [reflexivity|].
    destruct (b list_audio_devices); [reflexivity|].
    destruct (b list_cameras); reflexivity.
  - destruct (b get_system_info) as [x|s]; cbn.
    { repeat split. }
    destruct (b list_audio_devices) as [x|a]; cbn.
    { rewrite <- app_assoc. repeat split. }
    destruct (b list_cameras) as [x|cams]; cbn;
      rewrite <- !app_assoc; repeat split.
  - rewrite (step_settle _ _ _ _ H).
    destruct pt; try contradiction; cbn; apply app_nil_r.
  - rewrite (step_settle _ _ _ _ H).
    destruct pt; try contradiction; reflexivity.
  - rewrite (step_settle _ _ _ _ H).
    destruct pt; try contradiction; reflexivity.
  - rewrite (step_settle _ _ _ _ H).
    destruct pt; try contradiction; reflexivity.
Qed.

(** C3 as stated fails: after a refresh in which [list_audio_devices] is
    rejected, the audio section still lists the devices of the previous,
    successful refresh. *)
Lemma stale_audio_after_failed_enumeration :
  let e1 := fst (exec (serve laptop devices_up online) refresh env0) in
  let e2 := fst (exec (serve laptop audio_down online) refresh e1) in
  serve laptop audio_down online list_audio_devices = inl "permission denied" /\
  audio (st e2) = Some mic_and_speakers /\
  cameras (st e2) = ["FaceTime HD"] /\
  audio_section (st e2) =
  El "section" ""
    [ El "h2" "" [Text "音频设备"];
      El "div" "grid two"
        [ El "div" "" [El "h3" "" [Text "输入设备"]; El "ul" "" [El "li" "" [Text "Mic"]]];
          El "div" "" [El "h3" "" [Text "输出设备"]; El "ul" "" [El "li" "" [Text "Speakers"]]] ];
      El "p" "muted"
        [Text "默认输入: "; Text "Mic"; Text "；默认输出: "; Text "-"] ].
Proof. repeat split. Qed.

Lemma last_cons {A} (l : list A) (x d : A) : last (x :: l) d = last l x.
Proof.
  revert x d. induction l as [|y l IH]; intros x d; [reflexivity|].
  change (last (x :: y :: l) d) with (last (y :: l) d).
  rewrite (IH y d), (IH y x). reflexivity.
Qed.

Lemma known_step (w : world) (ev : event) :
  Forall known (pending w) -> Forall known (pending (step ev w)).
Proof.
  intros K.
  destruct ev as [[|[|j]]|i c r].
  - rewrite step_click_refresh. cbn [pending].
    apply Forall_app; split; [assumption|]. repeat constructor. apply known_task_at.
  - rewrite step_click_runTest.
    destruct (testing (st (w_env w))); [assumption|]. cbn [pending].
    apply Forall_app; split; [assumption|]. repeat constructor. apply known_task_at.
  - rewrite step_click_elsewhere. assumption.
  - destruct (nth_error (pending w) i) as [t|] eqn:E.
    2:{ rewrite step_settle_none by assumption. assumption. }
    assert (Kt : known t).
    { apply (proj1 (Forall_forall known (pending w)) K).
      eapply nth_error_In; eassumption. }
    destruct Kt as [pt ->].
    destruct (cmd_eq_dec c (command_at pt)) as [->|ne].
    2:{ rewrite (step_settle_other _ _ _ _ _ E ne). assumption. }
    rewrite (step_settle _ _ _ _ E). cbn [pending].
    apply Forall_app; split; [exact (Forall_remove_nth known i _ _ E K)|].
    destruct (snd (continue_ pt r (w_env w))); repeat constructor.
    apply known_task_at.
Qed.

(** A step changes [audio] and [cameras] only by delivering a reply. *)
Lemma enumeration_step (w : world) (ev : event) :
  Forall known (pending w) ->
  audio (st (w_env (step ev w))) =
  match fulfilled_reply list_audio_devices ev w with
  | Some a => Some a
  | None => audio (st (w_env w))
  end /\
  cameras (st (w_env (step ev w))) =
  match fulfilled_reply list_cameras ev w with
  | Some cams => cams
  | None => cameras (st (w_env w))
  end.
Proof.
  intros K.
  destruct ev as [[|[|j]]|i c r].
  - rewrite step_click_refresh. split; reflexivity.
  - rewrite step_click_runTest.
    destruct (testing (st (w_env w))); split; reflexivity.
  - rewrite step_click_elsewhere. split; reflexivity.
  - unfold fulfilled_reply.
    destruct (nth_error (pending w) i) as [t|] eqn:E.
    2:{ rewrite step_settle_none by assumption. split; reflexivity. }
    assert (Kt : known t).
    { apply (proj1 (Forall_forall known (pending w)) K).
      eapply nth_error_In; eassumption. }
    destruct Kt as [pt ->].
    destruct (cmd_eq_dec c (awaited (task_at pt))) as [->|ne].
    2:{ rewrite (step_settle_other _ _ _ _ _ E ne). split; reflexivity. }
    pose proof (step_settle w i pt r E) as X. unfold command_at in X.
    rewrite X. clear X.
    destruct pt; decide_cmds; rewrite ?cast_reply_refl;
      destruct r as [x|v]; split; reflexivity.
Qed.

Lemma enumeration_run (evs : list event) (w : world) :
  Forall known (pending w) ->
  audio (st (w_env (run evs w))) =
  last (map Some (deliveries list_audio_devices evs w)) (audio (st (w_env w))) /\
  cameras (st (w_env (run evs w))) =
  last (deliveries list_cameras evs w) (cameras (st (w_env w))).
Proof.
  revert w. induction evs as [|ev evs IH]; intros w K; [split; reflexivity|].
  change (run (ev :: evs) w) with (run evs (step ev w)).
  destruct (IH (step ev w) (known_step w ev K)) as [IA IC].
  destruct (enumeration_step w ev K) as [SA SC].
  rewrite IA, IC, SA, SC. cbn [deliveries].
  split.
  - destruct (fulfilled_reply list_audio_devices ev w) as [a|]; [|reflexivity].
    cbn [app map]. rewrite last_cons. reflexivity.
  - destruct (fulfilled_reply list_cameras ev w) as [cams|]; [|reflexivity].
    cbn [app]. rewrite last_cons. reflexivity.
Qed.

(** C3, amended: when [list_audio_devices] or [list_cameras] is rejected,
    the rejection reaches [refresh] as one error, which [refresh] catches
    and only logs; no state variable is cleared, so the section of the
    failed enumeration keeps showing what it showed just before the
    rejection arrived.  For a refresh run on its own that is what it showed
    before the refresh; in the event loop, in every reachable state, it is
    the most recent reply delivered so far to any refresh, and the
    placeholder (audio) or the no-cameras message (cameras) when none was
    delivered. *)
Theorem failed_enumeration_keeps_section :
  (forall (b : backend) (e : env) (x : exn),
      b list_audio_devices = inl x \/ b list_cameras = inl x ->
      let e' := fst (exec b refresh e) in
      snd (exec b refresh e) = None /\
      (exists y, console e' = console e ++ [("refresh error", y)]) /\
      (b list_audio_devices = inl x ->
       audio (st e') = audio (st e) /\
       audio_section (st e') = audio_section (st e)) /\
      cameras (st e') = cameras (st e) /\
      cameras_section (st e') = cameras_section (st e)) /\
  (forall (evs : list event) (i : nat) (t : task) (x : exn),
      let w := run evs startup in
      nth_error (pending w) i = Some t ->
      awaited t = list_audio_devices \/ awaited t = list_cameras ->
      let w' := step (Settle i (awaited t) (inl x)) w in
      pending w' = remove_nth i (pending w) /\
      calls (w_env w') = calls (w_env w) /\
      console (w_env w') = console (w_env w) ++ [("refresh error", x)] /\
      st (w_env w') = st (w_env w) /\
      audio_section (st (w_env w')) = audio_section (st (w_env w)) /\
      cameras_section (st (w_env w')) = cameras_section (st (w_env w))) /\
  (forall evs : list event,
      let s := st (w_env (run evs startup)) in
      audio s = last (map Some (deliveries list_audio_devices evs startup)) None /\
      cameras s = last (deliveries list_cameras evs startup) [] /\
      (deliveries list_audio_devices evs startup = [] ->
       shows loading (audio_section s)) /\
      (deliveries list_cameras evs startup = [] ->
       shows no_cameras (cameras_section s))).
Proof.
  split; [|split].
  - intros b e x H. cbv zeta. rewrite exec_refresh.
    destruct (b get_system_info) as [y|s].
    { repeat split; exists y; reflexivity. }
    destruct (b list_audio_devices) as [y|a].
    { repeat split; exists y; reflexivity. }
    destruct H as [H|H]; [discriminate|].
    rewrite H. repeat split; try discriminate. exists x. reflexivity.
  - intros evs i t x w E A w'.
    assert (Kt : known t).
    { apply (proj1 (Forall_forall known (pending w))
                   (inv_known _ _ (invariant_run evs))).
      eapply nth_error_In; eassumption. }
    destruct Kt as [pt ->].
    assert (S : st (w_env w') = st (w_env w) /\
                pending w' = remove_nth i (pending w) /\
                calls (w_env w') = calls (w_env w) /\
                console (w_env w') = console (w_env w) ++ [("refresh error", x)]).
    { subst w'. pose proof (step_settle w i pt (inl x) E) as X.
      unfold command_at in X. rewrite X. clear X.
      destruct pt; destruct A as [A|A]; try discriminate A;
        cbn; rewrite app_nil_r; repeat split. }
    destruct S as (S & P & C & L).
    rewrite S. repeat split; assumption.
  - intros evs s.
    destruct (enumeration_run evs startup (inv_known _ _ invariant_startup))
      as [A C].
    change (audio (st (w_env startup))) with (@None AudioDevices) in A.
    change (cameras (st (w_env startup))) with (@nil string) in C.
    fold s in A, C.
    split; [exact A|]. split; [exact C|]. split.
    + intros H. rewrite H in A. cbn in A.
      unfold audio_section, shows. rewrite A. right. left. reflexivity.
    + intros H. rewrite H in C. cbn in C.
      unfold cameras_section, shows. rewrite C. right. left. reflexivity.
Qed.

(** Two refreshes overlap; the later one loads the devices, then the
    earlier one's enumeration is rejected: the devices stay on screen. *)
Lemma failed_enumeration_keeps_section_witness :
  let evs := [ Click 0;
               Settle 0 get_system_info (inr (sample_info 100));
               Settle 0 get_system_info (inr (sample_info 200));
               Settle 1 list_audio_devices (inr mic_and_speakers) ] in
  let w := run evs startup in
  let w' := step (Settle 0 list_audio_devices (inl "permission denied")) w in
  nth_error (pending w) 0 = Some (task_at AtAudio) /\
  audio (st (w_env w)) = Some mic_and_speakers /\
  deliveries list_audio_devices evs startup = [mic_and_speakers] /\
  st (w_env w') = st (w_env w) /\
  console (w_env w') = [("refresh error", "permission denied")].
Proof.
  cbv zeta. split; [reflexivity|]. split; [reflexivity|]. split; [reflexivity|].
  pose proof (proj1 (proj2 failed_enumeration_keeps_section)
                [ Click 0;
                  Settle 0 get_system_info (inr (sample_info 100));
                  Settle 0 get_system_info (inr (sample_info 200));
                  Settle 1 list_audio_devices (inr mic_and_speakers) ]
                0%nat (task_at AtAudio) "permission denied"
                eq_refl (or_introl eq_refl)) as H.
  cbv zeta in H. destruct H as (_ & _ & L & S & _).
  split; [exact S|exact L].
Defined.

(** ** Which queries are invoked, and when *)

(** C4 as stated fails: when [list_audio_devices] is rejected at startup,
    the startup refresh ends without any call of [list_cameras]. *)
Lemma cameras_not_queried_when_audio_fails :
  let b := serve laptop audio_down online in
  let w := run [Settle 0 get_system_info (b get_system_info);
                Settle 0 list_audio_devices (b list_audio_devices)] startup in
  pending w = [] /\
  calls (w_env w) = [get_system_info; list_audio_devices] /\
  invocations list_cameras (w_env w) = 0%nat /\
  invocations list_cameras (fst (exec b refresh env0)) = 0%nat.
Proof. repeat split. Qed.

(** C4, amended: every start of [refresh] (the one at startup and one per
    click on the refresh button) invokes [get_system_info] exactly once;
    it invokes [list_audio_devices] next, once, only if that succeeded, and
    [list_cameras] after it, once, only if both succeeded; so all three are
    invoked exactly once in a refresh without a rejection.
    [run_network_test] is invoked by [runTest] alone, once, and so never
    more often than the run-test button was clicked. *)
Theorem queries_per_refresh :
  (forall (b : backend) (e : env),
      calls (fst (exec b refresh e)) = calls e ++ refresh_calls b) /\
  (forall (b : backend) (e : env),
      calls (fst (exec b runTest e)) = calls e ++ [run_network_test]) /\
  calls (w_env startup) = [get_system_info] /\
  forall evs : list event,
    let w := run evs startup in
    invocations get_system_info (w_env w) = S (clicks 0 evs) /\
    (invocations list_audio_devices (w_env w)
     <= invocations get_system_info (w_env w))%nat /\
    (invocations list_cameras (w_env w)
     <= invocations list_audio_devices (w_env w))%nat /\
    (invocations run_network_test (w_env w) <= clicks 1 evs)%nat.
Proof.
  split; [|split; [|split]].
  - intros b e. rewrite exec_refresh. unfold refresh_calls.
    destruct (b get_system_info); [reflexivity|].
    destruct (b list_audio_devices); cbn; rewrite <- ?app_assoc; [reflexivity|].
    destruct (b list_cameras); cbn; rewrite <- ?app_assoc; reflexivity.
  - intros b e. rewrite exec_runTest. reflexivity.
  - reflexivity.
  - intros evs w.
    destruct (invariant_run evs) as [_ _ S A C N]. fold w in S, A, C, N.
    repeat split; try assumption; lia.
Qed.

(** ** The network test handler *)

Lemma awaiting_test_is_runTest (t : task) :
  known t -> awaited t = run_network_test -> t = task_at AtTest.
Proof.
  intros [pt ->] H. destruct pt; try discriminate H. reflexivity.
Qed.

Lemma step_settle_test (w : world) (i : nat) (r : settled NetTestResult) :
  nth_error (pending w) i = Some (task_at AtTest) ->
  step (Settle i run_network_test r) w =
  {| w_env := set_st (with_testing false)
                (set_st (with_net (Some match r with
                                        | inl x => error_only x
                                        | inr v => v
                                        end)) (w_env w));
     pending := remove_nth i (pending w) |}.
Proof.
  intros H. change run_network_test with (command_at AtTest).
  rewrite (step_settle w i AtTest r H). cbn [continue_ fst snd].
  rewrite app_nil_r. reflexivity.
Qed.

(** C5: while a network test is in flight the run-test button is disabled,
    so a click on it starts no second call; the testing flag is reset to
    false when the test completes, fulfilled or rejected; hence at most one
    network test is in flight in any world the event loop reaches. *)
Theorem one_network_test_at_a_time (evs : list event) :
  let w := run evs startup in
  (in_flight run_network_test w <= 1)%nat /\
  (in_flight run_network_test w = 1%nat <-> testing (st (w_env w)) = true) /\
  map disabled (actions (st (w_env w))) = [false; testing (st (w_env w))] /\
  (in_flight run_network_test w = 1%nat -> step (Click 1) w = w) /\
  forall (i : nat) (t : task) (r : settled NetTestResult),
    nth_error (pending w) i = Some t ->
    awaited t = run_network_test ->
    let w' := step (Settle i run_network_test r) w in
    testing (st (w_env w')) = false /\
    in_flight run_network_test w' = 0%nat.
Proof.
  intros w. destruct (invariant_run evs) as [K T _ _ _ _]. fold w in K, T.
  assert (B : in_flight run_network_test w = 1%nat <-> testing (st (w_env w)) = true).
  { rewrite T. destruct (testing (st (w_env w))); split; congruence. }
  split; [rewrite T; destruct (testing (st (w_env w))); lia|].
  split; [exact B|].
  split; [reflexivity|].
  split.
  - intros H. apply B in H. rewrite step_click_runTest, H. reflexivity.
  - intros i t r E A.
    assert (Kt : known t).
    { apply (proj1 (Forall_forall known (pending w)) K).
      eapply nth_error_In; eassumption. }
    rewrite (awaiting_test_is_runTest t Kt A) in E.
    cbv zeta. rewrite (step_settle_test w i r E).
    split; [reflexivity|].
    pose proof (waiting_remove_nth run_network_test i _ _ E) as W.
    unfold in_flight in *; cbn [pending].
    rewrite awaits_task_at in W. decide_cmds.
    destruct (testing (st (w_env w))); lia.
Qed.

(** C2: [run_network_test] never throws, it answers every invocation with
    a record; and whenever the shell's [runTest] completes, on a fulfilled
    call or on a rejected one, the [net] state holds a record: the reply,
    or the record made of the error's text. *)
Theorem runTest_always_shows_a_result :
  (forall n : Backend.network, exists r, Backend.run_network_test n = inr r) /\
  (forall (b : backend) (e : env),
      snd (exec b runTest e) = None /\
      testing (st (fst (exec b runTest e))) = false /\
      net (st (fst (exec b runTest e))) =
      Some match b run_network_test with
           | inl x => error_only x
           | inr r => r
           end) /\
  forall (evs : list event) (i : nat) (t : task) (r : settled NetTestResult),
    let w := run evs startup in
    nth_error (pending w) i = Some t ->
    awaited t = run_network_test ->
    net (st (w_env (step (Settle i run_network_test r) w))) =
    Some match r with
         | inl x => error_only x
         | inr v => v
         end.
Proof.
  split; [|split].
  - intros n. eexists. reflexivity.
  - intros b e. rewrite exec_runTest. repeat split.
  - intros evs i t r w E A.
    assert (Kt : known t).
    { apply (proj1 (Forall_forall known (pending w)) (inv_known _ _ (invariant_run evs))).
      eapply nth_error_In; eassumption. }
    rewrite (awaiting_test_is_runTest t Kt A) in E.
    rewrite (step_settle_test w i r E). reflexivity.
Qed.

(** ** The camera section *)

(** C10: the [cameras] state starts as the empty list, and the camera
    section shows the no-cameras message exactly when the list is empty;
    so the section is the same before the first enumeration completes,
    after an enumeration that failed at startup, and after one that found
    zero cameras. *)
Theorem no_cameras_message_is_ambiguous :
  cameras initial_state = [] /\
  (forall s : AppState, shows no_cameras (cameras_section s) <-> cameras s = []) /\
  cameras_section (st (w_env startup)) = cameras_section initial_state /\
  forall b : backend,
    (fulfilled (b get_system_info) && fulfilled (b list_audio_devices)
     && fulfilled (b list_cameras) = false
     \/ b list_cameras = inr [])%bool ->
    cameras_section (st (fst (exec b refresh env0))) = cameras_section initial_state.
Proof.
  split; [reflexivity|]. split; [|split; [reflexivity|]].
  - intros s. unfold cameras_section, shows.
    destruct (cameras s) as [|c l]; cbn.
    + split; [reflexivity|]. intros _. right. left. reflexivity.
    + split; [|discriminate].
      intros [H|[H|[]]]; discriminate H.
  - intros b H. rewrite exec_refresh.
    destruct (b get_system_info) as [x|s]; [reflexivity|].
    destruct (b list_audio_devices) as [x|a]; [reflexivity|].
    destruct (b list_cameras) as [x|cams]; [reflexivity|].
    destruct H as [H|H]; [discriminate H|].
    injection H as ->. reflexivity.
Qed.

(** ** The backend queries *)

Lemma concat_three_not_empty (a b c : string) :
  String.concat Backend.separator [a; b; c] <> "".
Proof. destruct a; discriminate. Qed.

(** C1: the error field of the record [run_network_test] answers with is
    null exactly when all three sub-measurements succeeded; otherwise it is
    the concatenation of the messages of exactly the failing ones, while
    each successful sub-measurement still fills its own field; when all
    three fail, the three fields are null and the error is not empty. *)
Theorem error_reports_exactly_the_failures (n : Backend.network) :
  exists r,
    Backend.run_network_test n = inr r /\
    (error r = None <->
     (Backend.succeeded (Backend.ip_lookup n)
      && Backend.succeeded (Backend.latency_check n)
      && Backend.succeeded (Backend.download n) = true)%bool) /\
    error r = match Backend.failed_reasons n with
              | [] => None
              | msgs => Some (String.concat Backend.separator msgs)
              end /\
    external_ip r = match Backend.ip_lookup n with
                    | Backend.Succeeded body => Some (Backend.trim body)
                    | Backend.Failed _ => None
                    end /\
    http_latency_ms r = match Backend.latency_check n with
                        | Backend.Succeeded ms => Some ms
                        | Backend.Failed _ => None
                        end /\
    download_mbps r = match Backend.download n with
                      | Backend.Succeeded (bytes_received, elapsed_seconds) =>
                          Some (Backend.throughput_mbps bytes_received elapsed_seconds)
                      | Backend.Failed _ => None
                      end /\
    (forall w1 w2 w3,
        Backend.ip_lookup n = Backend.Failed w1 ->
        Backend.latency_check n = Backend.Failed w2 ->
        Backend.download n = Backend.Failed w3 ->
        external_ip r = None /\ http_latency_ms r = None /\ download_mbps r = None /\
        exists m, error r = Some m /\ m <> "").
Proof.
  eexists. split; [reflexivity|].
  destruct n as [[body|w1] [ms|w2] [[bytes secs]|w3]];
    unfold Backend.failed_reasons; cbn -[String.concat];
    repeat split; try discriminate; try reflexivity;
    try (intros; discriminate).
  eexists. split; [reflexivity|]. apply concat_three_not_empty.
Qed.

(** C6: on a successful download sub-measurement [run_network_test]
    reports download_mbps = (bytes_received * 8) / (elapsed_seconds *
    1,000,000), whatever became of the other two sub-measurements; for
    3,000,000 bytes over [t] seconds that is 3,000,000 * 8 / (t * 1,000,000),
    which is 24 / t. *)
Theorem download_rate_formula
        (ip : Backend.probe string) (lat : Backend.probe Q) (t : Q) :
  (forall bytes_received : Z,
      exists r,
        Backend.run_network_test
          {| Backend.ip_lookup := ip; Backend.latency_check := lat;
             Backend.download := Backend.Succeeded (bytes_received, t) |} = inr r /\
        download_mbps r = Some ((inject_Z bytes_received * 8) / (t * 1000000))%Q) /\
  exists r q,
    Backend.run_network_test
      {| Backend.ip_lookup := ip; Backend.latency_check := lat;
         Backend.download := Backend.Succeeded (3000000%Z, t) |} = inr r /\
    download_mbps r = Some q /\
    (q == 3000000 * 8 / (t * 1000000))%Q /\
    (q == 24 / t)%Q.
Proof.
  split.
  - intros bytes. eexists. split; [reflexivity|].
    destruct ip, lat; reflexivity.
  - eexists. exists (Backend.throughput_mbps 3000000 t).
    split; [reflexivity|]. split; [destruct ip, lat; reflexivity|].
    split; [reflexivity|].
    unfold Backend.throughput_mbps.
    destruct (Qeq_dec t 0) as [Z0|NZ].
    + rewrite Z0. reflexivity.
    + change (inject_Z 3000000) with 3000000%Q. field. exact NZ.
Qed.

(** C7: the upload_mbps field of the record [run_network_test] answers
    with is null for every invocation; so is the one the shell holds after
    [runTest] against this backend. *)
Theorem upload_is_never_measured (n : Backend.network) :
  (exists r, Backend.run_network_test n = inr r /\ upload_mbps r = None) /\
  forall (h : Backend.host) (p : Backend.platform) (e : env),
  exists r,
    net (st (fst (exec (serve h p n) runTest e))) = Some r /\ upload_mbps r = None.
Proof.
  assert (U : exists r, Backend.run_network_test n = inr r /\ upload_mbps r = None).
  { eexists. split; [reflexivity|].
    destruct n as [[body|w1] [ms|w2] [[bytes secs]|w3]]; reflexivity. }
  split; [exact U|].
  intros h p e. destruct U as (r & E & U).
  exists r. rewrite exec_runTest.
  change (serve h p n run_network_test) with (Backend.run_network_test n).
  rewrite E. split; [reflexivity|exact U].
Qed.

(** C8: [get_system_info] answers every invocation with a record; a
    reading the host cannot give is null in it; cpu_brand is a string
    (empty when the host gives none) and the memory, swap and uptime fields
    are integers that are not negative.  The shell's [refresh] therefore
    always reaches [setSys] with that record. *)
Theorem system_info_always_answers (h : Backend.host) :
  exists i,
    Backend.get_system_info h = inr i /\
    os_name i = Backend.host_os_name h /\
    hostname i = Backend.host_hostname h /\
    kernel_version i = Backend.host_kernel_version h /\
    os_version i = Backend.host_os_version h /\
    cpu_physical_cores i = option_map Z.of_N (Backend.host_physical_cores h) /\
    cpu_brand i = match Backend.host_cpu_brand h with Some b => b | None => "" end /\
    (0 <= total_memory i /\ 0 <= used_memory i /\ 0 <= total_swap i /\
     0 <= used_swap i /\ 0 <= uptime i)%Z /\
    Forall (fun f => 0 <= received f /\ 0 <= transmitted f)%Z (network_ifaces i) /\
    forall (p : Backend.platform) (n : Backend.network) (e : env),
      sys (st (fst (exec (serve h p n) refresh e))) = Some i.
Proof.
  eexists. split; [reflexivity|].
  repeat match goal with |- _ /\ _ => split end;
    try reflexivity; try (cbn; apply N2Z.is_nonneg).
  - apply Forall_forall. intros f Hf. cbn in Hf. apply in_map_iff in Hf.
    destruct Hf as (x & <- & _). cbn. split; apply N2Z.is_nonneg.
  - intros p n e. rewrite exec_refresh.
    change (serve h p n get_system_info) with (Backend.get_system_info h).
    unfold Backend.get_system_info. cbv zeta.
    destruct (serve h p n list_audio_devices); [reflexivity|].
    destruct (serve h p n list_cameras); reflexivity.
Qed.

(** ** The two semantics agree, and sample runs *)

Ltac settle_at pt :=
  match goal with
  | |- context [step (Settle ?i ?c ?r) ?w] =>
      let E := fresh "E" in
      pose proof (step_settle w i pt r eq_refl) as E;
      change (command_at pt) with c in E;
      rewrite E; clear E
  end.

(** A refresh with nothing else going on: the event loop, fed the
    backend's answers in order, ends where [exec] ends. *)
Lemma refresh_alone_in_the_loop (b : backend) (e : env) :
  run [ Click 0;
        Settle 0 get_system_info (b get_system_info);
        Settle 0 list_audio_devices (b list_audio_devices);
        Settle 0 list_cameras (b list_cameras) ]
      {| w_env := e; pending := [] |}
  = {| w_env := fst (exec b refresh e); pending := [] |}.
Proof.
  rewrite exec_refresh. unfold run; cbn [fold_left].
  rewrite step_click_refresh; cbn [w_env pending app].
  settle_at AtSys.
  destruct (b get_system_info) as [x|s]; cbn [continue_ fst snd w_env pending].
  { reflexivity. }
  settle_at AtAudio.
  destruct (b list_audio_devices) as [x|a]; cbn [continue_ fst snd w_env pending].
  { reflexivity. }
  settle_at AtCameras.
  destruct (b list_cameras) as [x|cams]; reflexivity.
Qed.

Lemma runTest_alone_in_the_loop (b : backend) (e : env) :
  testing (st e) = false ->
  run [ Click 1; Settle 0 run_network_test (b run_network_test) ]
      {| w_env := e; pending := [] |}
  = {| w_env := fst (exec b runTest e); pending := [] |}.
Proof.
  intros H. rewrite exec_runTest. unfold run; cbn [fold_left].
  rewrite step_click_runTest; cbn [w_env pending app]. rewrite H.
  settle_at AtTest.
  reflexivity.
Qed.

Example trim_ip_body : Backend.trim " 203.0.113.7
" = "203.0.113.7".
Proof. reflexivity. Qed.

Example test_online :
  Backend.run_network_test online =
  inr {| external_ip := Some "203.0.113.7";
         http_latency_ms := Some (42 # 1);
         download_mbps := Some (Backend.throughput_mbps 3000000 (3 # 2));
         upload_mbps := None;
         error := None |}
  /\ (Backend.throughput_mbps 3000000 (3 # 2) == 16)%Q.
Proof. split; reflexivity. Qed.

Example test_ip_down :
  Backend.run_network_test ip_down =
  inr {| external_ip := None;
         http_latency_ms := Some (42 # 1);
         download_mbps := Some (Backend.throughput_mbps 3000000 (3 # 2));
         upload_mbps := None;
         error := Some "ip: timeout" |}.
Proof. reflexivity. Qed.

Example test_offline :
  Backend.run_network_test offline =
  inr {| external_ip := None; http_latency_ms := None; download_mbps := None;
         upload_mbps := None;
         error := Some "ip: timeout; latency: dns; download: reset" |}.
Proof. reflexivity. Qed.

Example memory_in_megabytes :
  round_div_1024 9437184 = 9216%Z /\ round_div_1024 1535 = 1%Z
  /\ round_div_1024 1536 = 2%Z /\ floor_div_3600 7300 = 2%Z.
Proof. repeat split. Qed.

Example zero_cameras_look_like_startup :
  cameras_section (st (fst (exec (serve laptop no_cameras_attached online) refresh env0)))
  = El "section" "" [El "h2" "" [Text "摄像头"]; El "p" "" [Text "未检测到摄像头"]]
  /\ cameras_section (st (fst (exec (serve laptop cameras_down online) refresh env0)))
  = cameras_section initial_state.
Proof. split; reflexivity. Qed.

Example second_click_is_ignored :
  let w := run [Click 1; Click 1] startup in
  in_flight run_network_test w = 1%nat /\
  calls (w_env w) = [get_system_info; run_network_test].
Proof. split; reflexivity. Qed.

(** ** Further invariants of the event loop *)

Lemma known_pending (evs : list event) (i : nat) (t : task) :
  nth_error (pending (run evs startup)) i = Some t -> known t.
Proof.
  intros E.
  apply (proj1 (Forall_forall known _) (inv_known _ _ (invariant_run evs))).
  eapply nth_error_In; eassumption.
Qed.

Lemma display_startup : display_invariant startup.
Proof.
  split; cbn; try discriminate; try congruence; unfold in_flight; cbn; lia.
Qed.

Lemma display_step (w : world) (ev : event) :
  Forall known (pending w) ->
  display_invariant w -> display_invariant (step ev w).
Proof.
  intros K D.
  destruct ev as [[|[|j]]|i c r].
  - rewrite step_click_refresh. destruct D as [D1 D2 D3 D4 D5].
    split; shell_norm; try assumption.
    + intros H. apply D2. lia.
    + intros H. apply D3. lia.
  - rewrite step_click_runTest.
    destruct (testing (st (w_env w))) eqn:B; [assumption|].
    destruct D as [D1 D2 D3 D4 D5].
    split; shell_norm; try assumption; try reflexivity.
    + intros H. apply D2. lia.
    + intros H. apply D3. lia.
  - rewrite step_click_elsewhere. assumption.
  - destruct (nth_error (pending w) i) as [t|] eqn:E.
    2:{ rewrite step_settle_none by assumption. assumption. }
    assert (Kt : known t).
    { apply (proj1 (Forall_forall known (pending w)) K).
      eapply nth_error_In; eassumption. }
    destruct Kt as [pt ->].
    destruct (cmd_eq_dec c (command_at pt)) as [->|ne].
    2:{ rewrite (step_settle_other _ _ _ _ _ E ne). assumption. }
    rewrite (step_settle _ _ _ _ E).
    destruct D as [D1 D2 D3 D4 D5].
    pose proof (waiting_remove_nth list_audio_devices i _ _ E) as W2.
    pose proof (waiting_remove_nth list_cameras i _ _ E) as W3.
    destruct pt; destruct r as [x|v]; split; shell_norm;
      try assumption; try discriminate;
      try (intros H; first [apply D2 | apply D3]; lia).
    all: try (intros _; first [apply D2 | apply D3]; lia).
    all: try (intros _; apply D4; apply D3; lia).
Qed.

Lemma display_run (evs : list event) : display_invariant (run evs startup).
Proof.
  induction evs as [|ev evs IH] using rev_ind.
  - exact display_startup.
  - rewrite run_snoc. apply display_step; [|exact IH].
    exact (inv_known _ _ (invariant_run evs)).
Qed.

Lemma console_startup : console_invariant [] startup.
Proof. split; [constructor|cbv; lia]. Qed.

Ltac console_norm :=
  unfold refreshes_in_flight in *; shell_norm;
  cbn [console invoked set_st logged] in *;
  rewrite ?length_app; cbn [List.length].

Lemma console_step (evs : list event) (ev : event) (w : world) :
  Forall known (pending w) ->
  console_invariant evs w -> console_invariant (evs ++ [ev]) (step ev w).
Proof.
  intros K [M N].
  destruct ev as [[|[|j]]|i c r].
  - rewrite step_click_refresh.
    split; console_norm; [assumption|lia].
  - rewrite step_click_runTest.
    destruct (testing (st (w_env w))) eqn:B; split; console_norm;
      try assumption; lia.
  - rewrite step_click_elsewhere. split; console_norm; [assumption|lia].
  - destruct (nth_error (pending w) i) as [t|] eqn:E.
    2:{ rewrite step_settle_none by assumption.
        split; console_norm; [assumption|lia]. }
    assert (Kt : known t).
    { apply (proj1 (Forall_forall known (pending w)) K).
      eapply nth_error_In; eassumption. }
    destruct Kt as [pt ->].
    destruct (cmd_eq_dec c (command_at pt)) as [->|ne].
    2:{ rewrite (step_settle_other _ _ _ _ _ E ne).
        split; console_norm; [assumption|lia]. }
    rewrite (step_settle _ _ _ _ E).
    pose proof (waiting_remove_nth get_system_info i _ _ E) as W1.
    pose proof (waiting_remove_nth list_audio_devices i _ _ E) as W2.
    pose proof (waiting_remove_nth list_cameras i _ _ E) as W3.
    destruct pt; destruct r as [x|v]; split; console_norm;
      try assumption;
      try (apply Forall_app; split; [assumption|]; repeat constructor);
      lia.
Qed.

Lemma console_run (evs : list event) : console_invariant evs (run evs startup).
Proof.
  induction evs as [|ev evs IH] using rev_ind.
  - exact console_startup.
  - rewrite run_snoc. apply console_step; [|exact IH].
    exact (inv_known _ _ (invariant_run evs)).
Qed.

(** No step of the event loop sets [sys] or [audio] back to null. *)
Lemma loaded_step (w : world) (ev : event) :
  Forall known (pending w) ->
  (sys (st (w_env w)) <> None -> sys (st (w_env (step ev w))) <> None) /\
  (audio (st (w_env w)) <> None -> audio (st (w_env (step ev w))) <> None).
Proof.
  intros K.
  destruct ev as [[|[|j]]|i c r].
  - rewrite step_click_refresh. split; intros H; exact H.
  - rewrite step_click_runTest.
    destruct (testing (st (w_env w))); split; intros H; exact H.
  - rewrite step_click_elsewhere. split; intros H; exact H.
  - destruct (nth_error (pending w) i) as [t|] eqn:E.
    2:{ rewrite step_settle_none by assumption. split; intros H; exact H. }
    assert (Kt : known t).
    { apply (proj1 (Forall_forall known (pending w)) K).
      eapply nth_error_In; eassumption. }
    destruct Kt as [pt ->].
    destruct (cmd_eq_dec c (command_at pt)) as [->|ne].
    2:{ rewrite (step_settle_other _ _ _ _ _ E ne). split; intros H; exact H. }
    rewrite (step_settle _ _ _ _ E).
    destruct pt; destruct r as [x|v]; split; intros H; shell_norm;
      first [exact H | discriminate].
Qed.

Lemma run_app (evs evs' : list event) (w : world) :
  run (evs ++ evs') w = run evs' (run evs w).
Proof. unfold run. apply fold_left_app. Qed.

Lemma loaded_run (evs evs' : list event) :
  (sys (st (w_env (run evs startup))) <> None ->
   sys (st (w_env (run (evs ++ evs') startup))) <> None) /\
  (audio (st (w_env (run evs startup))) <> None ->
   audio (st (w_env (run (evs ++ evs') startup))) <> None).
Proof.
  induction evs' as [|ev evs' IH] using rev_ind.
  - rewrite app_nil_r. split; intros H; exact H.
  - rewrite app_assoc, run_snoc.
    destruct (loaded_step (run (evs ++ evs') startup) ev
                (inv_known _ _ (invariant_run (evs ++ evs')))) as [S A].
    destruct IH as [IS IA]. split; intros H; [apply S, IS, H|apply A, IA, H].
Qed.

(** ** Further properties of the shell *)

(** X1: in every reachable state with the testing flag set, the previous
    result has been cleared ([runTest] sets [net] to null before the call,
    lines 62-63): the network section shows the prompt and the run-test
    button reads "testing". *)
Theorem result_cleared_while_testing (evs : list event) :
  testing (st (w_env (run evs startup))) = true ->
  let s := st (w_env (run evs startup)) in
  net s = None /\
  net_section s = El "section" "" [El "h2" "" [Text "网络测试"]; prompt] /\
  map label (actions s) = ["刷新信息"; "测试中…"].
Proof.
  intros H s. subst s.
  pose proof (dv_cleared _ (display_run evs) H) as N.
  split; [exact N|]. split.
  - unfold net_section. rewrite N. reflexivity.
  - unfold actions. rewrite H. reflexivity.
Qed.

Lemma result_cleared_while_testing_witness :
  let r := error_only "boom" in
  let before := [Click 1; Settle 1 run_network_test (inr r)] in
  net (st (w_env (run before startup))) = Some r /\
  testing (st (w_env (run (before ++ [Click 1]) startup))) = true /\
  net (st (w_env (run (before ++ [Click 1]) startup))) = None.
Proof.
  cbv zeta. split; [reflexivity|]. split; [reflexivity|].
  exact (proj1 (result_cleared_while_testing
                  [Click 1; Settle 1 run_network_test (inr (error_only "boom")); Click 1]
                  eq_refl)).
Defined.

(** X2: the system and audio sections show the loading placeholder exactly
    while their state variable is null, and no handler ever sets [sys] or
    [audio] back to null: once a section has loaded, no later event brings
    its placeholder back. *)
Theorem loading_never_returns (evs evs' : list event) :
  (forall s : AppState, shows loading (sys_section s) <-> sys s = None) /\
  (forall s : AppState, shows loading (audio_section s) <-> audio s = None) /\
  (sys (st (w_env (run evs startup))) <> None ->
   sys (st (w_env (run (evs ++ evs') startup))) <> None) /\
  (audio (st (w_env (run evs startup))) <> None ->
   audio (st (w_env (run (evs ++ evs') startup))) <> None).
Proof.
  split; [|split; [|exact (loaded_run evs evs')]].
  - intros s. unfold sys_section, shows, loading.
    destruct (sys s) as [i|]; cbn.
    + split; [|discriminate]. intros [H|[H|[]]]; discriminate H.
    + split; [reflexivity|]. intros _. right. left. reflexivity.
  - intros s. unfold audio_section, shows, loading.
    destruct (audio s) as [a|]; cbn.
    + split; [|discriminate]. intros [H|[H|[H|[]]]]; discriminate H.
    + split; [reflexivity|]. intros _. right. left. reflexivity.
Qed.

(** X3: the sections load in the order of the awaits of [refresh]: in
    every reachable state, while [sys] is null so is [audio], and while
    [audio] is null the camera list is empty. *)
Theorem sections_load_in_order (evs : list event) :
  let s := st (w_env (run evs startup)) in
  (sys s = None -> audio s = None) /\
  (audio s = None -> cameras s = []).
Proof.
  intros s. destruct (display_run evs) as [_ _ _ A C]. fold s in A, C.
  split; intros H.
  - destruct (audio s) as [a|]; [|reflexivity].
    exfalso. apply A; [discriminate|exact H].
  - destruct (cameras s) as [|c l]; [reflexivity|].
    exfalso. apply C; [discriminate|exact H].
Qed.

(** X4: the refresh button is never disabled: a click on it always starts
    one more refresh, also while others are in flight, so [n] clicks after
    startup leave [n + 1] calls of get_system_info unsettled. *)
Theorem refresh_is_never_blocked (evs : list event) (n : nat) :
  let w := run evs startup in
  in_flight get_system_info (step (Click 0) w) = S (in_flight get_system_info w) /\
  invocations get_system_info (w_env (step (Click 0) w))
  = S (invocations get_system_info (w_env w)) /\
  in_flight get_system_info (run (repeat (Click 0) n) startup) = S n.
Proof.
  intros w. rewrite step_click_refresh. repeat split.
  - shell_norm. lia.
  - shell_norm. lia.
  - clear evs w. induction n as [|n IH]; [reflexivity|].
    cbn [repeat]. rewrite repeat_cons, run_snoc, step_click_refresh.
    shell_norm. lia.
Qed.

Lemma awaiting_at (t : task) (pt : point) :
  known t -> awaited t = command_at pt -> t = task_at pt.
Proof.
  intros [pt' ->] H. destruct pt, pt'; try discriminate H; reflexivity.
Qed.

(** X5: replies are applied in the order they settle, not in the order the
    refreshes were started: whenever a suspended refresh receives its
    reply, however many newer refreshes have completed meanwhile, that
    reply overwrites the state variable. *)
Theorem replies_apply_in_settle_order (evs : list event) (i : nat) (t : task) :
  let w := run evs startup in
  nth_error (pending w) i = Some t ->
  (forall s : SystemInfo,
      awaited t = get_system_info ->
      sys (st (w_env (step (Settle i get_system_info (inr s)) w))) = Some s) /\
  (forall a : AudioDevices,
      awaited t = list_audio_devices ->
      audio (st (w_env (step (Settle i list_audio_devices (inr a)) w))) = Some a) /\
  (forall cams : list string,
      awaited t = list_cameras ->
      cameras (st (w_env (step (Settle i list_cameras (inr cams)) w))) = cams).
Proof.
  intros w E. pose proof (known_pending evs i t E) as K.
  repeat split.
  - intros s A. rewrite (awaiting_at t AtSys K A) in E.
    pose proof (step_settle w i AtSys (inr s) E) as X.
    change (command_at AtSys) with get_system_info in X.
    rewrite X. reflexivity.
  - intros a A. rewrite (awaiting_at t AtAudio K A) in E.
    pose proof (step_settle w i AtAudio (inr a) E) as X.
    change (command_at AtAudio) with list_audio_devices in X.
    rewrite X. reflexivity.
  - intros cams A. rewrite (awaiting_at t AtCameras K A) in E.
    pose proof (step_settle w i AtCameras (inr cams) E) as X.
    change (command_at AtCameras) with list_cameras in X.
    rewrite X. reflexivity.
Qed.

Lemma replies_apply_in_settle_order_witness :
  let evs := [Click 0; Settle 1 get_system_info (inr (sample_info 200))] in
  nth_error (pending (run evs startup)) 0 = Some (task_at AtSys) /\
  sys (st (w_env (run evs startup))) = Some (sample_info 200) /\
  sys (st (w_env (step (Settle 0 get_system_info (inr (sample_info 100)))
                       (run evs startup)))) = Some (sample_info 100).
Proof.
  cbv zeta. split; [reflexivity|]. split; [reflexivity|].
  exact (proj1 (replies_apply_in_settle_order
                  [Click 0; Settle 1 get_system_info (inr (sample_info 200))]
                  0 (task_at AtSys) eq_refl)
               (sample_info 100) eq_refl).
Defined.

(** X6: only [refresh] writes to the console, and at most once per run:
    in every reachable state each console entry carries the message
    "refresh error", and the entries together with the refreshes still in
    flight are no more than the refreshes started. *)
Theorem console_holds_refresh_errors (evs : list event) :
  let w := run evs startup in
  Forall (fun entry => fst entry = "refresh error") (console (w_env w)) /\
  (List.length (console (w_env w)) + refreshes_in_flight w <= S (clicks 0 evs))%nat.
Proof.
  intros w. destruct (console_run evs) as [M N]. split; assumption.
Qed.

(** X7: [runTest] leaves [sys], [audio], [cameras] and the console alone,
    and [refresh] and [runTest] commute: run one after the other in either
    order, against any two backends, they end in the same state with the
    same console. *)
Theorem refresh_and_runTest_commute (b1 b2 : backend) (e : env) :
  let t := fst (exec b2 runTest e) in
  (sys (st t) = sys (st e) /\ audio (st t) = audio (st e) /\
   cameras (st t) = cameras (st e) /\ console t = console e) /\
  st (fst (exec b2 runTest (fst (exec b1 refresh e))))
  = st (fst (exec b1 refresh (fst (exec b2 runTest e)))) /\
  console (fst (exec b2 runTest (fst (exec b1 refresh e))))
  = console (fst (exec b1 refresh (fst (exec b2 runTest e)))).
Proof.
  cbv zeta. rewrite !exec_runTest, !exec_refresh.
  split; [repeat split|].
  destruct (b1 get_system_info) as [x|s]; [split; reflexivity|].
  destruct (b1 list_audio_devices) as [x|a]; [split; reflexivity|].
  destruct (b1 list_cameras) as [x|cams]; split; reflexivity.
Qed.

(** X8: the handlers keep no history.  Run twice against the same backend,
    [refresh] and [runTest] leave the state they leave when run once; and
    after a refresh in which nothing is rejected, [sys], [audio] and
    [cameras] are the three replies, whatever they were before. *)
Theorem handlers_keep_no_history (b : backend) (e : env) :
  st (fst (exec b refresh (fst (exec b refresh e)))) = st (fst (exec b refresh e)) /\
  st (fst (exec b runTest (fst (exec b runTest e)))) = st (fst (exec b runTest e)) /\
  forall s a cams,
    b get_system_info = inr s -> b list_audio_devices = inr a ->
    b list_cameras = inr cams ->
    st (fst (exec b refresh e)) =
    {| sys := Some s; audio := Some a; cameras := cams;
       testing := testing (st e); net := net (st e) |}.
Proof.
  rewrite !exec_runTest, !exec_refresh. repeat split.
  - destruct (b get_system_info) as [x|s]; [reflexivity|].
    destruct (b list_audio_devices) as [x|a]; [reflexivity|].
    destruct (b list_cameras) as [x|cams]; reflexivity.
  - intros s a cams -> -> ->. reflexivity.
Qed.

Lemma round_div_1024_nearest (n : Z) : nearest_1024 n (round_div_1024 n).
Proof.
  unfold nearest_1024, round_div_1024.
  pose proof (Z.div_mod (n + 512) 1024 ltac:(lia)).
  pose proof (Z.mod_pos_bound (n + 512) 1024 ltac:(lia)). lia.
Qed.

Lemma round_div_1024_mono (n m : Z) :
  (n <= m -> round_div_1024 n <= round_div_1024 m)%Z.
Proof. intros H. unfold round_div_1024. apply Z.div_le_mono; lia. Qed.

Lemma floor_div_3600_hours (n : Z) :
  (3600 * floor_div_3600 n <= n < 3600 * floor_div_3600 n + 3600)%Z.
Proof.
  unfold floor_div_3600.
  pose proof (Z.div_mod n 3600 ltac:(lia)).
  pose proof (Z.mod_pos_bound n 3600 ltac:(lia)). lia.
Qed.

(** X9: once the system information has loaded, the grid of the system
    section has nine rows, the last three being memory, swap and uptime
    (lines 97-99).  The memory and swap figures shown are the kilobyte
    counts divided by 1024 and rounded to the nearest integer, halves up
    ([Math.round]): each is within half a unit of the exact quotient, and
    they keep the order of the counts, so used <= total is shown as
    used <= total.  The uptime shown is the whole hours elapsed
    ([Math.floor]). *)
Theorem memory_is_rounded_to_nearest (s : AppState) (i : SystemInfo) :
  sys s = Some i ->
  exists (rows : list node) (u t su ts h : Z),
    sys_section s =
    El "section" "" [El "h2" "" [Text "系统信息"]; El "div" "grid" rows] /\
    List.length rows = 9%nat /\
    nth_error rows 6 = Some (memory_row u t) /\
    nth_error rows 7 = Some (swap_row su ts) /\
    nth_error rows 8 = Some (uptime_row h) /\
    nearest_1024 (used_memory i) u /\ nearest_1024 (total_memory i) t /\
    nearest_1024 (used_swap i) su /\ nearest_1024 (total_swap i) ts /\
    (used_memory i <= total_memory i -> u <= t)%Z /\
    (used_swap i <= total_swap i -> su <= ts)%Z /\
    (3600 * h <= uptime i < 3600 * h + 3600)%Z.
Proof.
  intros H. unfold sys_section. rewrite H.
  eexists. exists (round_div_1024 (used_memory i)), (round_div_1024 (total_memory i)),
    (round_div_1024 (used_swap i)), (round_div_1024 (total_swap i)),
    (floor_div_3600 (uptime i)).
  split; [reflexivity|]. split; [reflexivity|].
  split; [reflexivity|]. split; [reflexivity|]. split; [reflexivity|].
  repeat split; try apply round_div_1024_nearest;
    try apply round_div_1024_mono; apply floor_div_3600_hours.
Qed.

Lemma memory_is_rounded_to_nearest_witness :
  let i := sample_info 7300 in
  let s := with_sys i initial_state in
  sys s = Some i /\
  exists (rows : list node) (u t h : Z),
    sys_section s =
    El "section" "" [El "h2" "" [Text "系统信息"]; El "div" "grid" rows] /\
    nth_error rows 6 = Some (memory_row u t) /\
    nth_error rows 8 = Some (uptime_row h) /\
    nearest_1024 9437184 u /\ nearest_1024 16777216 t /\
    (3600 * h <= 7300 < 3600 * h + 3600)%Z.
Proof.
  cbv zeta. split; [reflexivity|].
  destruct (memory_is_rounded_to_nearest
              (with_sys (sample_info 7300) initial_state) (sample_info 7300) eq_refl)
    as (rows & u & t & su & ts & h & S & _ & M & _ & U & Nu & Nt & _ & _ & _ & _ & Hh).
  exists rows, u, t, h.
  split; [exact S|]. split; [exact M|]. split; [exact U|].
  split; [exact Nu|]. split; [exact Nt|exact Hh].
Defined.

(** X10: when the call of run_network_test is rejected with [x],
    [runTest] still ends with a result on screen, whatever was shown
    before: the grid of the network section holds a dash for each of the
    four measurements, with the two gaps of line 141, followed by the
    error line with the text of [x], or by nothing when that text is empty
    ([net.error &&], line 141). *)
Theorem rejected_test_shows_dashes (b : backend) (e : env) (x : exn) :
  b run_network_test = inl x ->
  net_section (st (fst (exec b runTest e))) =
  El "section" ""
    [ El "h2" "" [Text "网络测试"];
      El "div" "grid"
        ([ El "div" "" [El "b" "" [Text "外网 IP"]; Text ": "; Text "-"];
           El "div" "" [El "b" "" [Text "HTTP 延迟"]; Text ": "; Text "-"];
           El "div" "" [El "b" "" [Text "下载速度"]; Text ": "; Text "-"];
           Text "            ";
           El "div" "" [El "b" "" [Text "上传速度"]; Text ": "; Text "-"];
           Text "            " ]
         ++ when (negb (String.eqb x ""))
              (El "div" "err" [Text "错误: "; Text x])) ].
Proof.
  intros H. rewrite exec_runTest, H. reflexivity.
Qed.

Lemma rejected_test_shows_dashes_witness :
  let e := fst (exec (serve laptop devices_up online) runTest env0) in
  no_bridge "timeout" run_network_test = inl "timeout" /\
  (exists r, net (st e) = Some r /\ external_ip r = Some "203.0.113.7") /\
  net_section (st (fst (exec (no_bridge "timeout") runTest e))) =
  El "section" ""
    [ El "h2" "" [Text "网络测试"];
      El "div" "grid"
        [ El "div" "" [El "b" "" [Text "外网 IP"]; Text ": "; Text "-"];
          El "div" "" [El "b" "" [Text "HTTP 延迟"]; Text ": "; Text "-"];
          El "div" "" [El "b" "" [Text "下载速度"]; Text ": "; Text "-"];
          Text "            ";
          El "div" "" [El "b" "" [Text "上传速度"]; Text ": "; Text "-"];
          Text "            ";
          El "div" "err" [Text "错误: "; Text "timeout"] ] ].
Proof.
  cbv zeta. split; [reflexivity|]. split.
  - eexists. split; reflexivity.
  - exact (rejected_test_shows_dashes
             (no_bridge "timeout")
             (fst (exec (serve laptop devices_up online) runTest env0))
             "timeout" eq_refl).
Defined.

Lemma nothing_loaded_step (w : world) (ev : event) :
  bridgeless ev = true -> nothing_loaded w -> nothing_loaded (step ev w).
Proof.
  intros B [P S A C NA NC N].
  destruct ev as [[|[|j]]|i c r].
  - rewrite step_click_refresh.
    split; shell_norm; try assumption; try lia.
    apply Forall_app; split; [assumption|]. repeat constructor.
  - rewrite step_click_runTest.
    destruct (testing (st (w_env w))); [split; assumption|].
    split; shell_norm; try assumption; try lia.
    + apply Forall_app; split; [assumption|]. constructor; [right; reflexivity|constructor].
    + left. reflexivity.
  - rewrite step_click_elsewhere. split; assumption.
  - destruct r as [x|v]; [|discriminate B].
    destruct (nth_error (pending w) i) as [t|] eqn:E.
    2:{ rewrite step_settle_none by assumption. split; assumption. }
    pose proof (Forall_remove_nth _ i _ _ E P) as P'.
    assert (Kt : t = task_at AtSys \/ t = task_at AtTest).
    { apply (proj1 (Forall_forall _ (pending w)) P).
      eapply nth_error_In; eassumption. }
    destruct Kt as [-> | ->].
    + destruct (cmd_eq_dec c (command_at AtSys)) as [->|ne].
      2:{ rewrite (step_settle_other _ _ _ _ _ E ne). split; assumption. }
      rewrite (step_settle _ _ _ _ E).
      split; shell_norm; try assumption; try lia. rewrite app_nil_r. assumption.
    + destruct (cmd_eq_dec c (command_at AtTest)) as [->|ne].
      2:{ rewrite (step_settle_other _ _ _ _ _ E ne). split; assumption. }
      rewrite (step_settle _ _ _ _ E).
      split; shell_norm; try assumption; try lia.
      * rewrite app_nil_r. assumption.
      * right. exists x. reflexivity.
Qed.

Lemma nothing_loaded_run (evs : list event) :
  forallb bridgeless evs = true -> nothing_loaded (run evs startup).
Proof.
  induction evs as [|ev evs IH] using rev_ind; intros H.
  - split; try reflexivity.
    + repeat constructor.
    + left. reflexivity.
  - rewrite forallb_app in H. apply andb_true_iff in H. destruct H as [H1 H2].
    cbn in H2. rewrite andb_true_r in H2.
    rewrite run_snoc. apply nothing_loaded_step; [exact H2|exact (IH H1)].
Qed.

(** X11: in a context without the Tauri bridge, where every call is
    rejected (the browser context of line 3), nothing ever loads: whatever
    is clicked, [sys] and [audio] stay null and the camera list empty, so
    the sections keep their placeholders; list_audio_devices and
    list_cameras are never invoked; and the network section holds either
    nothing or a record made of an error text alone. *)
Theorem without_bridge_nothing_loads (evs : list event) :
  forallb bridgeless evs = true ->
  let w := run evs startup in
  let s := st (w_env w) in
  sys s = None /\ audio s = None /\ cameras s = [] /\
  shows loading (sys_section s) /\ shows loading (audio_section s) /\
  shows no_cameras (cameras_section s) /\
  invocations list_audio_devices (w_env w) = 0%nat /\
  invocations list_cameras (w_env w) = 0%nat /\
  (net s = None \/ exists x, net s = Some (error_only x)).
Proof.
  intros H w s. destruct (nothing_loaded_run evs H) as [_ S A C NA NC N].
  fold w in S, A, C, NA, NC, N. fold s in S, A, C, N.
  repeat split; try assumption.
  - unfold sys_section. rewrite S. right. left. reflexivity.
  - unfold audio_section. rewrite A. right. left. reflexivity.
  - unfold cameras_section. rewrite C. right. left. reflexivity.
Qed.

Lemma without_bridge_nothing_loads_witness :
  let evs := [ Settle 0 get_system_info (inl "no bridge"); Click 1; Click 0;
               Settle 0 run_network_test (inl "no bridge") ] in
  forallb bridgeless evs = true /\
  sys (st (w_env (run evs startup))) = None /\
  net (st (w_env (run evs startup))) = Some (error_only "no bridge").
Proof.
  cbv zeta. split; [reflexivity|]. split.
  - exact (proj1 (without_bridge_nothing_loads
                    [ Settle 0 get_system_info (inl "no bridge"); Click 1; Click 0;
                      Settle 0 run_network_test (inl "no bridge") ] eq_refl)).
  - reflexivity.
Defined.

Example online_result_on_screen :
  net_section (st (fst (exec (serve laptop devices_up online) runTest env0))) =
  El "section" ""
    [ El "h2" "" [Text "网络测试"];
      El "div" "grid"
        [ El "div" "" [El "b" "" [Text "外网 IP"]; Text ": "; Text "203.0.113.7"];
          El "div" "" [El "b" "" [Text "HTTP 延迟"]; Text ": ";
                       Template [Num (42 # 1); Text " ms"]];
          El "div" "" [El "b" "" [Text "下载速度"]; Text ": ";
                       Template [ToFixed (Backend.throughput_mbps 3000000 (3 # 2)) 2;
                                 Text " Mbps"]];
          gap;
          El "div" "" [El "b" "" [Text "上传速度"]; Text ": "; Text "-"];
          gap ] ].
Proof. reflexivity. Qed.
